(** * Session tokens of the collaboration server: a model of package [auth]

    The development embeds the session service of the server
    (package [auth]: [AuthenticateUser], [AuthenticateSession],
    [CreateSession], [InvalidateSessions] and the two key-naming helpers)
    and states the properties of the specification over it.

    Conventions.
    - Go's [uint] and [int] are the 64-bit types of the amd64 and arm64
      targets; they are carried as [Z] with the conversions written out.
    - A Go [string] is a sequence of bytes, hence a [string] of 8-bit
      characters here.
    - A Go result pair [(v, err)] is a pair whose second component is
      [option error]; [None] is Go's [nil] error.
    - The Redis server is an explicit keyspace ([gmap string entry]) with
      a clock in milliseconds; the client library is modelled call by
      call, including its argument encoder, because what reaches the
      server depends on it.
    - Calls to the logger have no effect on results or on the store and
      are left out. *)

From Stdlib Require Import ZArith NArith List String Ascii Bool Lia.
From Stdlib Require Import DecimalString DecimalN.
From stdpp Require Import base gmap strings.

Import ListNotations.
Local Open Scope string_scope.
Local Open Scope Z_scope.

(** ** Errors *)

(** How a [strconv] conversion failed. *)
Inductive num_cause := ErrSyntax | ErrRange.

(** Errors produced by the Redis client or reported by the server. *)
Inductive redis_error :=
| Nil                          (* redis.Nil: the reply was a nil bulk *)
| WRONGTYPE                    (* the key holds another kind of value *)
| CantMarshal (ty : string)    (* "redis: can't marshal %T (implement encoding.BinaryMarshaler)" *)
| TxFailed                     (* redis.TxFailedErr *)
| ConnError (msg : string).    (* connectivity: refused, reset, timed out *)

(** Go [error] values that travel through the service. *)
Inductive error :=
| ErrInvalidSessionToken                       (* auth.ErrInvalidSessionToken *)
| ErrWrongPassword                             (* auth.ErrWrongPassword *)
| ErrUserNotFound                              (* users.ErrUserNotFound *)
| RedisError (e : redis_error)
| NumError (func num : string) (cause : num_cause)   (* *strconv.NumError *)
| OtherError (msg : string).                   (* entropy source, directory, hashing *)

#[global] Instance num_cause_eq_dec : EqDecision num_cause.
Proof. solve_decision. Defined.
#[global] Instance redis_error_eq_dec : EqDecision redis_error.
Proof. solve_decision. Defined.
#[global] Instance error_eq_dec : EqDecision error.
Proof. solve_decision. Defined.

(** [errors.Is(err, target)] for the sentinel values used here: none of
    these errors wraps another one, so it is equality. *)
Definition errors_Is (err target : error) : bool := bool_decide (err = target).

Definition redis_Nil : error := RedisError Nil.

(** ** Machine integers *)

Definition MaxInt : Z := 2 ^ 63 - 1.
Definition MinInt : Z := - 2 ^ 63.

(** The conversion [uint(x)] of an [int]. *)
Definition uint (x : Z) : Z := x mod 2 ^ 64.

(** ** Decimal text *)

(** [%d] on a [uint], and the client's encoding of a [uint] argument
    ([strconv.AppendUint] in base 10): decimal digits, no sign, no
    leading zero. The argument is a [uint], so it is not negative. *)
Definition FormatUint (n : Z) : string :=
  NilZero.string_of_uint (N.to_uint (Z.to_N n)).

(** The decimal text of a signed integer, as it stands in an integer
    reply. *)
Definition FormatInt (n : Z) : string :=
  if n <? 0 then String "-" (FormatUint (- n)) else FormatUint n.

(** [strconv.Atoi]: an optional sign, then one or more decimal digits;
    anything else is a syntax error, and a value outside [int] is a range
    error. The value returned next to an error is not used by the
    callers and is left at 0. *)
Definition Atoi (s : string) : Z * option error :=
  let '(neg, digits) :=
    match s with
    | String c r =>
        if Ascii.eqb c "-" then (true, r)
        else if Ascii.eqb c "+" then (false, r)
        else (false, s)
    | EmptyString => (false, s)
    end in
  match NilZero.uint_of_string digits with
  | None => (0, Some (NumError "Atoi" s ErrSyntax))
  | Some d =>
      let n := Z.of_N (N.of_uint d) in
      let v := if neg then - n else n in
      if (MinInt <=? v) && (v <=? MaxInt) then (v, None)
      else (0, Some (NumError "Atoi" s ErrRange))
  end.

(** ** Session tokens: [uuid.UUID] *)

(** A UUID is an array of 16 bytes. *)
Definition UUID := list ascii.

Definition hexdigit (n : N) : ascii :=
  match n with
  | 0 => "0" | 1 => "1" | 2 => "2" | 3 => "3" | 4 => "4" | 5 => "5"
  | 6 => "6" | 7 => "7" | 8 => "8" | 9 => "9" | 10 => "a" | 11 => "b"
  | 12 => "c" | 13 => "d" | 14 => "e" | _ => "f"
  end%N%char.

(** [hex.Encode]: two lower-case digits per byte. *)
Fixpoint hex_Encode (bs : list ascii) : string :=
  match bs with
  | [] => ""
  | b :: bs' =>
      let n := N_of_ascii b in
      String (hexdigit (N.div n 16)) (String (hexdigit (N.modulo n 16)) (hex_Encode bs'))
  end.

(** The slice [u[i:j]]. *)
Definition slice (u : list ascii) (i j : nat) : list ascii :=
  firstn (j - i) (skipn i u).

(** [UUID.String]: the canonical text, groups of 4, 2, 2, 2 and 6 bytes. *)
Definition UUID_String (u : UUID) : string :=
  hex_Encode (slice u 0 4) +:+ "-" +:+
  hex_Encode (slice u 4 6) +:+ "-" +:+
  hex_Encode (slice u 6 8) +:+ "-" +:+
  hex_Encode (slice u 8 10) +:+ "-" +:+
  hex_Encode (skipn 10 u).

(** [UUID.MarshalBinary]: the 16 bytes themselves. *)
Definition UUID_MarshalBinary (u : UUID) : string := string_of_list_ascii u.

(** ** Key names *)

(** Maps a session key to a user id. *)
Definition sessionRedisKey (sessionKey : string) : string :=
  "session:" +:+ sessionKey +:+ ":user.id".

(** Maps a user id to a set of session keys. *)
Definition sessionInvertedIndexRedisKey (userId : Z) : string :=
  "user:" +:+ FormatUint userId +:+ ":session.keys".

(** ** The Redis server *)

(** A key holds a string or a set of strings (the two kinds this service
    creates), and may carry an expiry time. *)
Inductive value :=
| VString (s : string)
| VSet (members : gset string).

Record entry := Entry { val : value; expire_at : option Z }.

(** A key whose expiry time has been reached is absent for every command. *)
Definition live (now : Z) (e : entry) : bool :=
  match expire_at e with
  | None => true
  | Some t => now <? t
  end.

Definition find (now : Z) (db : gmap string entry) (k : string) : option entry :=
  match db !! k with
  | Some e => if live now e then Some e else None
  | None => None
  end.

Inductive expiry := EX (seconds : Z) | PX (milliseconds : Z) | KEEPTTL.

Inductive command :=
| GET (key : string)
| SET (key val : string) (opt : option expiry)
| SADD (key member : string)
| GETSET (key val : string)
| DEL (keys : list string)
| WATCH (keys : list string)
| UNWATCH.

Inductive reply :=
| NilReply
| Status (s : string)
| Bulk (s : string)
| Integer (n : Z)
| ErrorReply (e : redis_error).

(** DEL removes the keys one after the other and counts those that
    existed; removing an absent key is not an error. *)
Fixpoint del (now : Z) (keys : list string) (db : gmap string entry)
  : Z * gmap string entry :=
  match keys with
  | [] => (0, db)
  | k :: ks =>
      let hit := match find now db k with Some _ => 1 | None => 0 end in
      let '(n, db') := del now ks (delete k db) in
      (hit + n, db')
  end.

(** What the server does with one command at time [now]. *)
Definition exec (now : Z) (c : command) (db : gmap string entry)
  : reply * gmap string entry :=
  match c with
  | GET k =>
      match find now db k with
      | None => (NilReply, db)
      | Some (Entry (VString s) _) => (Bulk s, db)
      | Some (Entry (VSet _) _) => (ErrorReply WRONGTYPE, db)
      end
  | SET k v opt =>
      let t :=
        match opt with
        | None => None
        | Some (EX s) => Some (now + s * 1000)
        | Some (PX ms) => Some (now + ms)
        | Some KEEPTTL =>
            match find now db k with Some e => expire_at e | None => None end
        end in
      (Status "OK", <[k := Entry (VString v) t]> db)
  | SADD k m =>
      match find now db k with
      | None => (Integer 1, <[k := Entry (VSet {[m]}) None]> db)
      | Some (Entry (VSet s) t) =>
          (Integer (if bool_decide (m ∈ s) then 0 else 1),
           <[k := Entry (VSet ({[m]} ∪ s)) t]> db)
      | Some (Entry (VString _) _) => (ErrorReply WRONGTYPE, db)
      end
  | GETSET k v =>
      match find now db k with
      | None => (NilReply, <[k := Entry (VString v) None]> db)
      | Some (Entry (VString old) _) => (Bulk old, <[k := Entry (VString v) None]> db)
      | Some (Entry (VSet _) _) => (ErrorReply WRONGTYPE, db)
      end
  | DEL ks => let '(n, db') := del now ks db in (Integer n, db')
  | WATCH _ => (Status "OK", db)
  | UNWATCH => (Status "OK", db)
  end.

(** ** The world the service runs in *)

(** [store] and [now] are the server's keyspace and clock. [faults]
    schedules connectivity failures: each command sent consumes the head,
    [Some e] makes that call fail with [e] without reaching the server,
    [None] (or an exhausted schedule) lets it through. [trace] records the
    commands written to the connection, oldest first. [uuids] are the
    outcomes of the coming calls to [uuid.NewV4]. *)
Record world := World {
  store : gmap string entry;
  now : Z;
  faults : list (option redis_error);
  trace : list command;
  uuids : list (error + UUID)
}.

Definition M (A : Type) : Type := world -> A * world.

Definition ret {A} (a : A) : M A := fun w => (a, w).

Definition bind {A B} (m : M A) (k : A -> M B) : M B :=
  fun w => let '(a, w') := m w in k a w'.

Declare Scope go_scope.
Delimit Scope go_scope with go.
Notation "'let*' x ':=' c 'in' k" := (bind c (fun x => k))
  (at level 10, x pattern, c at level 100, k at level 200) : go_scope.
Local Open Scope go_scope.

(** ** The Redis client (go-redis v8) *)

(** The Go values this service hands to the client as command arguments. *)
Inductive arg :=
| AString (s : string)
| AUint (n : Z)
| AUUID (u : UUID)
| AStringsPtr (p : list string).   (* a *[]string *)

(** [proto.Writer.WriteArg]: strings are sent as they are, integers in
    decimal, a value with a [MarshalBinary] method (such as [uuid.UUID])
    as the bytes that method returns; any other type is refused. *)
Definition WriteArg (v : arg) : string * option error :=
  match v with
  | AString s => (s, None)
  | AUint n => (FormatUint n, None)
  | AUUID u => (UUID_MarshalBinary u, None)
  | AStringsPtr _ => ("", Some (RedisError (CantMarshal "*[]string")))
  end.

(** The world once command [c] has been written to the connection and
    the keyspace is [db]: one scheduled outcome is consumed. *)
Definition sent (c : command) (db : gmap string entry) (w : world) : world :=
  World db (now w) (tl (faults w)) (trace w ++ [c])%list (uuids w).

(** Sending one command: it is written to the connection, then either
    the scheduled failure happens or the server executes it and replies. *)
Definition process (c : command) : M reply :=
  fun w =>
    match hd None (faults w) with
    | Some e => (ErrorReply e, sent c (store w) w)
    | None =>
        let '(r, db) := exec (now w) c (store w) in
        (r, sent c db w)
    end.

(** A command's result object: its value and its error ([Val], [Err]). *)
Definition StringCmd : Type := string * option error.
Definition StatusCmd : Type := string * option error.
Definition IntCmd : Type := Z * option error.

Definition Err {A} (cmd : A * option error) : option error := snd cmd.

(** [proto.Reader.ReadString]: a bulk or status reply is its text, an
    integer reply its digits; a nil reply is the error [redis.Nil]. *)
Definition readString (r : reply) : StringCmd :=
  match r with
  | Bulk s | Status s => (s, None)
  | Integer n => (FormatInt n, None)
  | NilReply => ("", Some redis_Nil)
  | ErrorReply e => ("", Some (RedisError e))
  end.

(** [proto.Reader.ReadIntReply]: only an integer reply is a number. *)
Definition readInt (r : reply) : IntCmd :=
  match r with
  | Integer n => (n, None)
  | NilReply => (0, Some redis_Nil)
  | Bulk _ | Status _ => (0, Some (OtherError "redis: can't parse int reply"))
  | ErrorReply e => (0, Some (RedisError e))
  end.

(** [StringCmd.Int]: the command's error if it has one, else [Atoi]. *)
Definition StringCmd_Int (cmd : StringCmd) : Z * option error :=
  match Err cmd with
  | Some e => (0, Some e)
  | None => Atoi (fst cmd)
  end.

(** [time.Duration] is a count of nanoseconds. *)
Definition Millisecond : Z := 1000000.
Definition Second : Z := 1000 * Millisecond.
Definition Hour : Z := 3600 * Second.
Definition KeepTTL : Z := -1.

Definition usePrecise (dur : Z) : bool :=
  (dur <? Second) || negb (dur mod Second =? 0).

Definition formatMs (dur : Z) : Z :=
  if (0 <? dur) && (dur <? Millisecond) then 1 else dur / Millisecond.

Definition formatSec (dur : Z) : Z :=
  if (0 <? dur) && (dur <? Second) then 1 else dur / Second.

Definition Redis_Get (key : string) : M StringCmd :=
  let* r := process (GET key) in
  ret (readString r).

Definition Redis_Set (key : string) (value : arg) (expiration : Z) : M StatusCmd :=
  match WriteArg value with
  | (_, Some e) => ret ("", Some e)
  | (v, None) =>
      let opt :=
        if 0 <? expiration then
          if usePrecise expiration then Some (PX (formatMs expiration))
          else Some (EX (formatSec expiration))
        else if expiration =? KeepTTL then Some KEEPTTL
        else None in
      let* r := process (SET key v opt) in
      ret (readString r)
  end.

Definition Redis_SAdd (key : string) (member : arg) : M IntCmd :=
  match WriteArg member with
  | (_, Some e) => ret (0, Some e)
  | (m, None) =>
      let* r := process (SADD key m) in
      ret (readInt r)
  end.

Definition Redis_GetSet (key : string) (value : arg) : M StringCmd :=
  match WriteArg value with
  | (_, Some e) => ret ("", Some e)
  | (v, None) =>
      let* r := process (GETSET key v) in
      ret (readString r)
  end.

Definition Redis_Del (keys : list string) : M IntCmd :=
  let* r := process (DEL keys) in
  ret (readInt r).

(** A transaction handle. *)
Inductive Tx := TxHandle.

(** [Tx.Close]: UNWATCH, whose outcome is discarded. *)
Definition Tx_Close (tx : Tx) : M unit :=
  let* _ := process UNWATCH in
  ret tt.

(** [Client.Watch(ctx, fn, keys...)]: WATCH is sent only when keys are
    given; then [fn] runs, and the handle is closed. Nothing is queued or
    committed unless [fn] itself does so through the handle. *)
Definition Redis_Watch (fn : Tx -> M (option error)) (keys : list string)
  : M (option error) :=
  let tx := TxHandle in
  if (0 <? length keys)%nat then
    let* r := process (WATCH keys) in
    match Err (readString r) with
    | Some e => let* _ := Tx_Close tx in ret (Some e)
    | None =>
        let* err := fn tx in
        let* _ := Tx_Close tx in
        ret err
    end
  else
    let* err := fn tx in
    let* _ := Tx_Close tx in
    ret err.

(** ** The token generator *)

Definition uuid_Nil : UUID := repeat zero 16.

(** [uuid.NewV4]: the next outcome of the entropy source; a source that
    has nothing left fails the read. *)
Definition uuid_NewV4 : M (UUID * option error) :=
  fun w =>
    match uuids w with
    | [] => ((uuid_Nil, Some (OtherError "unexpected EOF")), w)
    | inl e :: us =>
        ((uuid_Nil, Some e), World (store w) (now w) (faults w) (trace w) us)
    | inr u :: us =>
        ((u, None), World (store w) (now w) (faults w) (trace w) us)
    end.

(** ** The session service *)

Definition AuthenticateSession (sessionKey : string) : M (Z * option error) :=
  let redisKey := sessionRedisKey sessionKey in
  let* cmd := Redis_Get redisKey in
  let '(userId, err) := StringCmd_Int cmd in
  match err with
  | Some e =>
      if errors_Is e redis_Nil then ret (0, Some ErrInvalidSessionToken)
      else ret (0, Some e)
  | None => ret (uint userId, None)
  end.

Definition CreateSession (userId : Z) : M (string * option error) :=
  let* (sessionKey, err) := uuid_NewV4 in
  match err with
  | Some e => ret ("", Some e)
  | None =>
      (* 1 month *)
      let keyDuration := Hour * 24 * 30 in
      let* err :=
        Redis_Watch (fun tx =>
          (* Create the session token's key *)
          let* cmd := Redis_Set (sessionRedisKey (UUID_String sessionKey))
                                (AUint userId) keyDuration in
          match Err cmd with
          | Some e => ret (Some e)
          | None =>
              (* Add the session token to the user's inverted index *)
              let* cmd := Redis_SAdd (sessionInvertedIndexRedisKey userId)
                                     (AUUID sessionKey) in
              match Err cmd with
              | Some e => ret (Some e)
              | None => ret None
              end
          end) [] in
      match err with
      | Some e => ret ("", Some e)
      | None => ret (UUID_String sessionKey, None)
      end
  end.

Definition InvalidateSessions (userId : Z) : M (option error) :=
  (* var sessionsSet []string *)
  let sessionsSet : list string := [] in
  let redisKey := sessionInvertedIndexRedisKey userId in
  (* the address of sessionsSet is passed as the command's value
     argument; the client only ever encodes it *)
  let* cmd := Redis_GetSet redisKey (AStringsPtr sessionsSet) in
  match Err cmd with
  | Some e => ret (Some e)
  | None =>
      let sessionsSet := map sessionRedisKey sessionsSet in
      let keysToDelete := (([] ++ sessionsSet) ++ [redisKey])%list in
      let* cmd := Redis_Del keysToDelete in
      match Err cmd with
      | Some e => ret (Some e)
      | None => ret None
      end
  end.

(** ** Authentication by password *)

(** What a call does: it returns, or the goroutine panics. *)
Inductive outcome (A : Type) :=
| Returns (a : A)
| Panics.
Arguments Returns {A} a.
Arguments Panics {A}.

Record LoginDto := { UsernameOrEmail : string; Password : string }.

Section AuthenticateUser.
(** The collaborators of package [users], taken as parameters: the
    directory lookup returns a pointer (nil is [None]) and an error;
    the password comparison is a method called on that pointer. *)
Variable User : Type.
Variable FindUserByUsernameOrEmail : string -> option User * option error.
Variable ComparePassword : option User -> string -> outcome (bool * option error).

Definition AuthenticateUser (authUser : LoginDto)
  : outcome (option User * option error) :=
  let '(user, err) := FindUserByUsernameOrEmail (UsernameOrEmail authUser) in
  (* if err != nil: the error is logged, and control falls through *)
  let _ := match err with Some _ => tt | None => tt end in
  match ComparePassword user (Password authUser) with
  | Panics => Panics
  | Returns (passwordMatch, err) =>
      match err with
      | Some e => Returns (None, Some e)
      | None =>
          if passwordMatch then Returns (user, None)
          else Returns (None, Some ErrWrongPassword)
      end
  end.
End AuthenticateUser.

(** Modelled from the spec: the user directory of package [users], whose
    code is not among the sources. The spec gives
    [UserDirectory.FindByUsernameOrEmail(identifier) -> UserRecord|NotFound]
    and [UserRecord.ComparePassword(plaintext) -> bool|error]; the record
    below keeps a name, an address and the stored credential. *)
Record UserRecord := {
  Username : string;
  Email : string;
  Credential : string
}.

(** Modelled from the spec: the lookup by user name or e-mail address
    over a list of records; no match is [NotFound], with a nil pointer. *)
Fixpoint FindByUsernameOrEmail (dir : list UserRecord) (identifier : string)
  : option UserRecord * option error :=
  match dir with
  | [] => (None, Some ErrUserNotFound)
  | u :: rest =>
      if String.eqb (Username u) identifier || String.eqb (Email u) identifier
      then (Some u, None)
      else FindByUsernameOrEmail rest identifier
  end.

(** Modelled from the spec: the comparison of a password with the stored
    credential. Reading the credential through a nil pointer panics. *)
Definition UserRecord_ComparePassword (u : option UserRecord) (plaintext : string)
  : outcome (bool * option error) :=
  match u with
  | None => Panics
  | Some r => Returns (String.eqb (Credential r) plaintext, None)
  end.

(** ** Abbreviations used in the statements *)

(** The session record written by [CreateSession] at time [t]: the user
    id in decimal, expiring 30 days (2592000 seconds) later. *)
Definition session_entry (t userId : Z) : entry :=
  Entry (VString (FormatUint userId)) (Some (t + 2592000 * 1000)).

(** The two commands of [CreateSession] for token [u] and user [userId],
    and the keyspace once the first has been executed. *)
Definition SET_session (u : UUID) (userId : Z) : command :=
  SET (sessionRedisKey (UUID_String u)) (FormatUint userId) (Some (EX 2592000)).

Definition SADD_index (u : UUID) (userId : Z) : command :=
  SADD (sessionInvertedIndexRedisKey userId) (UUID_MarshalBinary u).

Definition with_session (u : UUID) (userId : Z) (w : world) : gmap string entry :=
  <[sessionRedisKey (UUID_String u) := session_entry (now w) userId]> (store w).

(** The world after [uuid.NewV4] has taken its outcome. *)
Definition drawn (w : world) : world :=
  World (store w) (now w) (faults w) (trace w) (tl (uuids w)).

(** ** Sample inputs *)

Definition bytes (l : list N) : list ascii := map ascii_of_N l.

(** 2c816d07-9499-4907-8ea3-1785dfa0f9a0 *)
Definition token_A : UUID :=
  bytes [0x2c; 0x81; 0x6d; 0x07; 0x94; 0x99; 0x49; 0x07;
         0x8e; 0xa3; 0x17; 0x85; 0xdf; 0xa0; 0xf9; 0xa0]%N.

(** 7d444840-9dc0-41d1-b245-5ffd16a5c0d8 *)
Definition token_B : UUID :=
  bytes [0x7d; 0x44; 0x48; 0x40; 0x9d; 0xc0; 0x41; 0xd1;
         0xb2; 0x45; 0x5f; 0xfd; 0x16; 0xa5; 0xc0; 0xd8]%N.

(** An empty keyspace at time 0, no failure scheduled, and the entropy
    source about to yield the given outcomes. *)
Definition fresh (gen : list (error + UUID)) : world := World ∅ 0 [] [] gen.

(** A directory with one user. *)
Definition alice : UserRecord :=
  {| Username := "alice"; Email := "alice@example.org"; Credential := "correct horse" |}.

(** * Package [projects] *)

(** ** More of Go's library *)

(** The conversion [int(x)] of a [uint]: the same 64 bits, read as a
    signed number. *)
Definition int (x : Z) : Z := (x + 2 ^ 63) mod 2 ^ 64 - 2 ^ 63.

(** [strconv.Itoa]. *)
Definition Itoa (i : Z) : string := FormatInt i.

(** [strings.Join]. *)
Fixpoint strings_Join (elems : list string) (sep : string) : string :=
  match elems with
  | [] => ""
  | e :: rest =>
      match rest with
      | [] => e
      | _ :: _ => e +:+ sep +:+ strings_Join rest sep
      end
  end.

(** [strings.Split] with a separator of one byte, the only kind used
    here: the pieces between the separators, empty pieces included; an
    empty string gives one empty piece. *)
Fixpoint strings_Split (s : string) (sep : ascii) : list string :=
  match s with
  | EmptyString => [""]
  | String c r =>
      if Ascii.eqb c sep then "" :: strings_Split r sep
      else
        match strings_Split r sep with
        | piece :: pieces => String c piece :: pieces
        | [] => [String c ""]
        end
  end.

Definition StatusOK : Z := 200.
Definition StatusCreated : Z := 201.

(** The sentinel errors of gorm and of the package. *)
Definition gorm_ErrRecordNotFound : error := OtherError "record not found".
Definition ErrProjectNotFound : error := OtherError "project not found".

(** ** Records *)

(** The types are declared outside the sources at hand; the records keep
    the fields the sources use. A slice is a list, the nil slice being
    the empty list, except for [Skills], where nil ([None]) and the empty
    array ([Some []]) are told apart because the routes do so. *)
Module Project.
Record t := mk {
  ID : Z;
  Name : string;
  Tags : list string;
  LongDescription : string;
  ShortDescription : string;
  GithubLink : string
}.
End Project.

Module NewProjectDto.
Record t := mk {
  Name : string;
  Tags : list string;
  LongDescription : string;
  ShortDescription : string;
  GithubLink : string
}.
End NewProjectDto.

Module ProjectSummaryDto.
Record t := mk {
  Id : Z;
  Name : string;
  Tags : list string;
  ShortDescription : string;
  Skills : option (list string)
}.
End ProjectSummaryDto.

Module ProjectDto.
Record t := mk {
  Id : Z;
  Name : string;
  Tags : list string;
  ShortDescription : string;
  LongDescription : string;
  GithubLink : string
}.
End ProjectDto.

(** ** The service *)

(** Get the given project's summary. *)
Definition GetProjectSummary (project : Project.t) : ProjectSummaryDto.t :=
  {| ProjectSummaryDto.Id := Project.ID project;
     ProjectSummaryDto.Name := Project.Name project;
     ProjectSummaryDto.Tags := Project.Tags project;
     ProjectSummaryDto.ShortDescription := Project.ShortDescription project;
     ProjectSummaryDto.Skills := None |}.

Section ProjectsService.

(** The validator and the database handle are taken as parameters. [DB]
    is the state of the database; each gorm call used by the service is
    a function of that state: it returns the record as gorm leaves it
    behind the pointer, the call's [Error], and the new state. *)
Variable DB : Type.
Variable validate : NewProjectDto.t -> option error.
Variable Db_Create : Project.t -> DB -> (Project.t * option error) * DB.
Variable Db_Save : Project.t -> DB -> (Project.t * option error) * DB.
Variable Db_First : Project.t -> Z -> DB -> (Project.t * option error) * DB.

Definition CreateProject (newProject : NewProjectDto.t) (db : DB)
  : (option Project.t * option error) * DB :=
  match validate newProject with
  | Some err => ((None, Some err), db)
  | None =>
      let project :=
        {| Project.ID := 0;
           Project.Name := NewProjectDto.Name newProject;
           Project.Tags := NewProjectDto.Tags newProject;
           Project.LongDescription := NewProjectDto.LongDescription newProject;
           Project.ShortDescription := NewProjectDto.ShortDescription newProject;
           Project.GithubLink := NewProjectDto.GithubLink newProject |} in
      let '((project, result_Error), db') := Db_Create project db in
      match result_Error with
      | Some err => ((None, Some err), db')
      | None => ((Some project, None), db')
      end
  end.

Definition UpdateProject (projectId : Z) (projectData : NewProjectDto.t) (db : DB)
  : option error * DB :=
  match validate projectData with
  | Some err => (Some err, db)
  | None =>
      let project :=
        {| Project.ID := projectId;
           Project.Name := NewProjectDto.Name projectData;
           Project.Tags := NewProjectDto.Tags projectData;
           Project.LongDescription := NewProjectDto.LongDescription projectData;
           Project.ShortDescription := NewProjectDto.ShortDescription projectData;
           Project.GithubLink := NewProjectDto.GithubLink projectData |} in
      let '((_, result_Error), db') := Db_Save project db in
      match result_Error with
      | Some err =>
          if errors_Is err gorm_ErrRecordNotFound then (Some ErrProjectNotFound, db')
          else (Some err, db')
      | None => (None, db')
      end
  end.

(** The zero values of the records. *)
Definition Project_zero : Project.t := Project.mk 0 "" [] "" "" "".
Definition ProjectDto_zero : ProjectDto.t := ProjectDto.mk 0 "" [] "" "" "".

Definition GetProject (projectId : Z) (db : DB) : (ProjectDto.t * option error) * DB :=
  let project := Project_zero in
  let '((project, result_Error), db') := Db_First project projectId db in
  match result_Error with
  | Some err =>
      if errors_Is err gorm_ErrRecordNotFound then ((ProjectDto_zero, Some ErrProjectNotFound), db')
      else ((ProjectDto_zero, Some err), db')
  | None =>
      ({| ProjectDto.Id := Project.ID project;
          ProjectDto.Name := Project.Name project;
          ProjectDto.Tags := Project.Tags project;
          ProjectDto.ShortDescription := Project.ShortDescription project;
          ProjectDto.LongDescription := Project.LongDescription project;
          ProjectDto.GithubLink := Project.GithubLink project |}, None, db')
  end.

End ProjectsService.

(** ** The routes *)

(** What a route reads from the request: the values of a query
    parameter, and the variables of the matched path. *)
Record Request := {
  Query : string -> list string;
  Vars : string -> option string
}.

(** A call to the projects service. *)
Inductive ServiceCall :=
| AskCreateProject (dto : NewProjectDto.t)
| AskListProjects (pageSize pageOffset : Z) (tags skills : list string)
| AskGetProject (projectId : Z).

(** A value handed to the JSON writer. *)
Inductive Body :=
| JSummary (s : ProjectSummaryDto.t)
| JSummaries (l : list ProjectSummaryDto.t)
| JProject (d : ProjectDto.t).

(** What a route did: the service calls it made, in order; the headers
    it set; the status it wrote, with the value handed to the JSON writer
    if any; the error it returned; whether it panicked instead. *)
Record Exchange := {
  asked : list ServiceCall;
  header : list (string * string);
  written : option (Z * option Body);
  returned : option error;
  panicked : bool
}.

Section ProjectRoutes.

(** The collaborators: the session check of package [auth], the helpers
    of package [utils], and the service behind its interface. *)
Variable CheckSession : Request -> Z * option error.
Variable ReadJson : Request -> NewProjectDto.t * option error.
Variable WriteJson : Z -> Body -> option error.
Variable IntFromQuery : Request -> string -> Z -> Z * option error.
Variable ProjectNotFoundError : error.
Variable Service_CreateProject : NewProjectDto.t -> option Project.t * option error.
Variable Service_ListProjects :
  Z -> Z -> list string -> list string -> list ProjectSummaryDto.t * option error.
Variable Service_GetProject : Z -> ProjectDto.t * option error.

Definition RouteCreateProject (request : Request) : Exchange :=
  let '(_, err) := CheckSession request in
  match err with
  | Some e => Build_Exchange [] [] None (Some e) false
  | None =>
      let '(dto, err) := ReadJson request in
      match err with
      | Some e => Build_Exchange [] [] None (Some e) false
      | None =>
          let '(createdProject, err) := Service_CreateProject dto in
          match err with
          | Some e => Build_Exchange [AskCreateProject dto] [] None (Some e) false
          | None =>
              match createdProject with
              | None =>
                  (* the summary is taken through a nil pointer *)
                  Build_Exchange [AskCreateProject dto] [] None None true
              | Some createdProject =>
                  let projectSummary := GetProjectSummary createdProject in
                  let location :=
                    "/projects/" +:+ Itoa (int (Project.ID createdProject)) in
                  let err := WriteJson StatusCreated (JSummary projectSummary) in
                  Build_Exchange [AskCreateProject dto] [("Location", location)]
                    (Some (StatusCreated, Some (JSummary projectSummary))) err false
              end
          end
      end
  end.

Definition RouteListProjects (request : Request) : Exchange :=
  let '(pageSize, _) := IntFromQuery request "pageSize" 20 in
  let '(pageOffset, _) := IntFromQuery request "pageOffset" 0 in
  let tags :=
    if (0 <? length (Query request "tags"))%nat
    then
      let tagsRaw := strings_Join (Query request "tags") "," in
      strings_Split tagsRaw ","
    else [] in
  let pageSize := if (pageSize <? 1) || (20 <? pageSize) then 20 else pageSize in
  let pageOffset := if pageOffset <? 1 then 0 else pageOffset in
  let call := AskListProjects (uint pageSize) (uint pageOffset) tags [] in
  let '(projectSummaries, err) :=
    Service_ListProjects (uint pageSize) (uint pageOffset) tags [] in
  match err with
  | Some e => Build_Exchange [call] [] None (Some e) false
  | None =>
      let projectSummaries :=
        map (fun s =>
               {| ProjectSummaryDto.Id := ProjectSummaryDto.Id s;
                  ProjectSummaryDto.Name := ProjectSummaryDto.Name s;
                  ProjectSummaryDto.Tags := ProjectSummaryDto.Tags s;
                  ProjectSummaryDto.ShortDescription := ProjectSummaryDto.ShortDescription s;
                  ProjectSummaryDto.Skills := Some [] |})
            projectSummaries in
      let err := WriteJson StatusOK (JSummaries projectSummaries) in
      Build_Exchange [call] [] (Some (StatusOK, Some (JSummaries projectSummaries))) err false
  end.

Definition RouteGetProject (request : Request) : Exchange :=
  let parsed :=
    match Vars request "projectId" with
    | Some idStr =>
        let '(id, err) := Atoi idStr in
        match err with
        | Some e => inl e
        | None => inr (uint id)
        end
    | None => inr 0
    end in
  match parsed with
  | inl e => Build_Exchange [] [] None (Some e) false
  | inr projectId =>
      let '(dto, err) := Service_GetProject projectId in
      match err with
      | Some e =>
          if errors_Is e ProjectNotFoundError
          then Build_Exchange [AskGetProject projectId] [] (Some (404, None)) None false
          else Build_Exchange [AskGetProject projectId] [] None (Some e) false
      | None =>
          let err := WriteJson StatusOK (JProject dto) in
          Build_Exchange [AskGetProject projectId] []
            (Some (StatusOK, Some (JProject dto))) err false
      end
  end.

End ProjectRoutes.

(** ** Sample requests *)

Definition no_query : string -> list string := fun _ => [].
Definition no_vars : string -> option string := fun _ => None.

(** A request for the second page of ten projects tagged go or rust. *)
Definition page_request : Request :=
  {| Query := fun key =>
       if String.eqb key "tags" then ["go,rust"]
       else if String.eqb key "pageSize" then ["10"]
       else if String.eqb key "pageOffset" then ["1"]
       else [];
     Vars := no_vars |}.

(** Stand-ins for the collaborators in the sample runs: an integer
    parameter is read with [Atoi] from the first value, the default being
    used when there is none or it is not a number; the service knows one
    project; the writer succeeds. *)
Definition sample_IntFromQuery (request : Request) (key : string) (default : Z)
  : Z * option error :=
  match Query request key with
  | [] => (default, None)
  | v :: _ =>
      match Atoi v with
      | (n, None) => (n, None)
      | (_, Some e) => (default, Some e)
      end
  end.

Definition sample_project : Project.t :=
  Project.mk 7 "server" ["go"] "The collaboration server." "Server" "https://example.org/server".

Definition sample_ListProjects (pageSize pageOffset : Z) (tags skills : list string)
  : list ProjectSummaryDto.t * option error :=
  ([GetProjectSummary sample_project], None).

Definition sample_WriteJson (status : Z) (body : Body) : option error := None.

Definition sample_CheckSession (request : Request) : Z * option error := (42, None).

Definition sample_dto : NewProjectDto.t :=
  NewProjectDto.mk "server" ["go"] "The collaboration server." "Server"
                   "https://example.org/server".

Definition sample_ReadJson (request : Request) : NewProjectDto.t * option error :=
  (sample_dto, None).

(** A database stand-in, a list of projects: creation numbers the record
    after the ones present, saving replaces the records with the same id,
    and the lookup by id reports gorm's error when there is none. The
    validator stand-in asks for a name. *)
Definition sample_validate (dto : NewProjectDto.t) : option error :=
  if String.eqb (NewProjectDto.Name dto) "" then Some (OtherError "Name is required")
  else None.

Definition with_ID (id : Z) (p : Project.t) : Project.t :=
  Project.mk id (Project.Name p) (Project.Tags p) (Project.LongDescription p)
             (Project.ShortDescription p) (Project.GithubLink p).

Definition sample_Db_Create (p : Project.t) (db : list Project.t)
  : (Project.t * option error) * list Project.t :=
  let p' := with_ID (Z.of_nat (length db) + 1) p in
  ((p', None), (db ++ [p'])%list).

Definition sample_Db_Save (p : Project.t) (db : list Project.t)
  : (Project.t * option error) * list Project.t :=
  ((p, None), map (fun q => if Project.ID q =? Project.ID p then p else q) db).

Definition sample_Db_First (p : Project.t) (id : Z) (db : list Project.t)
  : (Project.t * option error) * list Project.t :=
  match List.find (fun q => Project.ID q =? id) db with
  | Some q => ((q, None), db)
  | None => ((p, Some gorm_ErrRecordNotFound), db)
  end.

(** The service of this package over the database stand-in, as the
    routes see it. *)
Definition sample_CreateProject (db : list Project.t) (dto : NewProjectDto.t)
  : option Project.t * option error :=
  fst (CreateProject (list Project.t) sample_validate sample_Db_Create dto db).

Definition sample_GetProject (db : list Project.t) (projectId : Z)
  : ProjectDto.t * option error :=
  fst (GetProject (list Project.t) sample_Db_First projectId db).

(** A request for the project named by the path variable. *)
Definition project_request (idStr : string) : Request :=
  {| Query := no_query;
     Vars := fun key => if String.eqb key "projectId" then Some idStr else None |}.

(** * Properties *)

(** ** Decimal text round trip *)

Section Decimal.

Lemma to_uint_nonnil (n : N) : N.to_uint n <> Decimal.Nil.
Proof.
  destruct n as [|p]; simpl; [discriminate | apply DecimalPos.Unsigned.to_uint_nonnil].
Qed.

(** The text of a number starts with a digit, never with a sign. *)
Lemma FormatUint_head (n : Z) :
  exists c r, FormatUint n = String c r /\
              Ascii.eqb c "-" = false /\ Ascii.eqb c "+" = false.
Proof.
  unfold FormatUint.
  pose proof (to_uint_nonnil (Z.to_N n)) as Hn.
  destruct (N.to_uint (Z.to_N n)); try congruence; simpl; eauto 6.
Qed.

Lemma uint_of_string_FormatUint (n : Z) :
  NilZero.uint_of_string (FormatUint n) = Some (N.to_uint (Z.to_N n)).
Proof.
  unfold FormatUint. apply NilZero.usu, to_uint_nonnil.
Qed.

(** Reading back what was written: exact for the values of an [int]. *)
Lemma Atoi_FormatUint (n : Z) :
  0 <= n <= MaxInt -> Atoi (FormatUint n) = (n, None).
Proof.
  intros Hn. unfold Atoi.
  destruct (FormatUint_head n) as (c & r & Hs & Hm & Hp).
  pose proof (uint_of_string_FormatUint n) as Hparse.
  rewrite Hs in *. rewrite Hm, Hp, Hparse.
  rewrite DecimalN.Unsigned.of_to, Z2N.id by lia.
  unfold MinInt, MaxInt in *.
  destruct (Z.leb_spec (- 2 ^ 63) n); [|lia].
  destruct (Z.leb_spec n (2 ^ 63 - 1)); [|lia].
  reflexivity.
Qed.

(** Above [MaxInt] the text no longer fits an [int]. *)
Lemma Atoi_FormatUint_range (n : Z) :
  MaxInt < n -> Atoi (FormatUint n) = (0, Some (NumError "Atoi" (FormatUint n) ErrRange)).
Proof.
  intros Hn. unfold Atoi.
  destruct (FormatUint_head n) as (c & r & Hs & Hm & Hp).
  pose proof (uint_of_string_FormatUint n) as Hparse.
  rewrite Hs in *. rewrite Hm, Hp, Hparse.
  rewrite DecimalN.Unsigned.of_to, Z2N.id by (unfold MaxInt in Hn; lia).
  unfold MinInt, MaxInt in *.
  destruct (Z.leb_spec n (2 ^ 63 - 1)); [lia|].
  rewrite andb_false_r. reflexivity.
Qed.

Lemma uint_small (n : Z) : 0 <= n <= MaxInt -> uint n = n.
Proof. unfold uint, MaxInt. intros. apply Z.mod_small. lia. Qed.

End Decimal.

(** ** Key names *)

Section Keys.

(** A session record and an index entry never share a key. *)
Lemma session_key_not_index_key (sessionKey : string) (userId : Z) :
  sessionRedisKey sessionKey <> sessionInvertedIndexRedisKey userId.
Proof. unfold sessionRedisKey, sessionInvertedIndexRedisKey. simpl. discriminate. Qed.

Lemma length_append (s1 s2 : string) :
  String.length (s1 +:+ s2) = (String.length s1 + String.length s2)%nat.
Proof. induction s1 as [|c s1 IH]; simpl; [reflexivity | now rewrite IH]. Qed.

Lemma append_inj_l (p s1 s2 : string) : p +:+ s1 = p +:+ s2 -> s1 = s2.
Proof. induction p as [|c p IH]; simpl; [trivial | intros [= H]; auto]. Qed.

Lemma append_inj_r (s1 s2 q : string) : s1 +:+ q = s2 +:+ q -> s1 = s2.
Proof.
  revert s2. induction s1 as [|c s1 IH]; intros [|d s2] H; simpl in H.
  - reflexivity.
  - apply (f_equal String.length) in H.
    rewrite !length_append in H. simpl in H. lia.
  - apply (f_equal String.length) in H.
    rewrite !length_append in H. simpl in H. lia.
  - injection H as -> H. f_equal. auto.
Qed.

(** The token can be read off a session-record key. *)
Lemma sessionRedisKey_inj (t1 t2 : string) :
  sessionRedisKey t1 = sessionRedisKey t2 -> t1 = t2.
Proof.
  unfold sessionRedisKey. intros H.
  apply append_inj_l in H. now apply append_inj_r in H.
Qed.

Lemma length_hex_Encode (bs : list ascii) :
  String.length (hex_Encode bs) = (2 * length bs)%nat.
Proof. induction bs as [|b bs IH]; simpl; [reflexivity | rewrite IH; lia]. Qed.

(** The canonical text has two digits per byte and four dashes. *)
Lemma length_UUID_String (u : UUID) :
  String.length (UUID_String u) = (2 * length u + 4)%nat.
Proof.
  unfold UUID_String, slice.
  rewrite !length_append, !length_hex_Encode.
  rewrite !length_firstn, !length_skipn.
  change (String.length "-") with 1%nat. lia.
Qed.

Lemma length_UUID_MarshalBinary (u : UUID) :
  String.length (UUID_MarshalBinary u) = length u.
Proof.
  unfold UUID_MarshalBinary.
  induction u as [|b u IH]; simpl; [reflexivity | now rewrite IH].
Qed.

(** The binary form of a token is never its text. *)
Lemma UUID_MarshalBinary_not_String (u : UUID) :
  UUID_MarshalBinary u <> UUID_String u.
Proof.
  intros H. apply (f_equal String.length) in H.
  rewrite length_UUID_String, length_UUID_MarshalBinary in H. lia.
Qed.

End Keys.

(** ** The server's commands *)

Section Server.
Implicit Types (db : gmap string entry) (k m : string).

Lemma find_insert_ne (t : Z) db k k' (e : entry) :
  k <> k' -> find t (<[k := e]> db) k' = find t db k'.
Proof. intros H. unfold find. now rewrite lookup_insert_ne. Qed.

(** SADD leaves every other key alone. *)
Lemma exec_SADD_frame (t : Z) db k m k' :
  k <> k' -> snd (exec t (SADD k m) db) !! k' = db !! k'.
Proof.
  intros H. simpl.
  destruct (find t db k) as [[[s|s] ttl]|]; simpl;
    [reflexivity | now rewrite lookup_insert_ne ..].
Qed.

(** SADD is refused exactly when the key holds a string. *)
Lemma exec_SADD_reply (t : Z) db k m :
  match find t db k with
  | Some (Entry (VString _) _) =>
      exec t (SADD k m) db = (ErrorReply WRONGTYPE, db)
  | Some (Entry (VSet s) ttl) =>
      exists n, exec t (SADD k m) db = (Integer n, <[k := Entry (VSet ({[m]} ∪ s)) ttl]> db)
  | None =>
      exec t (SADD k m) db = (Integer 1, <[k := Entry (VSet {[m]}) None]> db)
  end.
Proof.
  simpl. destruct (find t db k) as [[[s|s] ttl]|]; eauto.
Qed.


End Server.

(** ** One call at a time *)

Section Calls.

Lemma Redis_Set_month (key : string) (n : Z) (w : world) :
  Redis_Set key (AUint n) (Hour * 24 * 30) w =
  let c := SET key (FormatUint n) (Some (EX 2592000)) in
  match hd None (faults w) with
  | Some e => (("", Some (RedisError e)), sent c (store w) w)
  | None => (("OK", None), sent c (<[key := session_entry (now w) n]> (store w)) w)
  end.
Proof.
  unfold Redis_Set, WriteArg, bind, process, ret.
  change (0 <? Hour * 24 * 30) with true.
  change (usePrecise (Hour * 24 * 30)) with false.
  change (formatSec (Hour * 24 * 30)) with 2592000.
  cbv iota.
  destruct (hd None (faults w)); reflexivity.
Qed.

Lemma Redis_SAdd_uuid (key : string) (u : UUID) (w : world) :
  Redis_SAdd key (AUUID u) w =
  let c := SADD key (UUID_MarshalBinary u) in
  match hd None (faults w) with
  | Some e => ((0, Some (RedisError e)), sent c (store w) w)
  | None =>
      (readInt (fst (exec (now w) c (store w))),
       sent c (snd (exec (now w) c (store w))) w)
  end.
Proof.
  unfold Redis_SAdd, WriteArg, bind, process, ret.
  destruct (hd None (faults w)); [reflexivity|].
  destruct (exec (now w) (SADD key (UUID_MarshalBinary u)) (store w)); reflexivity.
Qed.

Lemma Tx_Close_run (tx : Tx) (w : world) :
  Tx_Close tx w = (tt, sent UNWATCH (store w) w).
Proof.
  unfold Tx_Close, bind, process, ret.
  destruct (hd None (faults w)); reflexivity.
Qed.

(** The client refuses to encode the address of a string slice, so
    this call fails before anything is written to the connection. *)
Lemma Redis_GetSet_pointer (key : string) (p : list string) (w : world) :
  Redis_GetSet key (AStringsPtr p) w =
  (("", Some (RedisError (CantMarshal "*[]string"))), w).
Proof. reflexivity. Qed.

Lemma Redis_Get_run (key : string) (w : world) :
  Redis_Get key w =
  match hd None (faults w) with
  | Some e => (("", Some (RedisError e)), sent (GET key) (store w) w)
  | None =>
      (match find (now w) (store w) key with
       | None => ("", Some redis_Nil)
       | Some (Entry (VString s) _) => (s, None)
       | Some (Entry (VSet _) _) => ("", Some (RedisError WRONGTYPE))
       end, sent (GET key) (store w) w)
  end.
Proof.
  unfold Redis_Get, bind, process, ret.
  destruct (hd None (faults w)); [reflexivity|]. simpl.
  destruct (find (now w) (store w) key) as [[[s|s] ttl]|]; reflexivity.
Qed.

End Calls.

(** ** Runs of the service *)

Section Runs.

Variables (userId : Z) (u : UUID) (us : list (error + UUID)) (w : world).
Hypothesis Hgen : uuids w = inr u :: us.

(** Every run of [CreateSession] once a token has been generated. *)
Lemma CreateSession_run :
  CreateSession userId w =
  match hd None (faults w) with
  | Some e =>
      (("", Some (RedisError e)),
       sent UNWATCH (store w) (sent (SET_session u userId) (store w) (drawn w)))
  | None =>
      let db1 := with_session u userId w in
      let w1 := sent (SET_session u userId) db1 (drawn w) in
      match hd None (tl (faults w)) with
      | Some e =>
          (("", Some (RedisError e)),
           sent UNWATCH db1 (sent (SADD_index u userId) db1 w1))
      | None =>
          let r := exec (now w) (SADD_index u userId) db1 in
          let w3 := sent UNWATCH (snd r) (sent (SADD_index u userId) (snd r) w1) in
          match Err (readInt (fst r)) with
          | Some e => (("", Some e), w3)
          | None => ((UUID_String u, None), w3)
          end
      end
  end.
Proof.
  unfold CreateSession, bind at 1, uuid_NewV4. rewrite Hgen.
  change (World (store w) (now w) (faults w) (trace w) us) with
    (World (store w) (now w) (faults w) (trace w) (tl (inr u :: us))).
  rewrite <- Hgen. fold (drawn w).
  unfold Redis_Watch. cbn [length Nat.ltb Nat.leb].
  unfold bind. rewrite Redis_Set_month. cbv zeta.
  fold (SET_session u userId).
  change (hd None (faults (drawn w))) with (hd None (faults w)).
  destruct (hd None (faults w)) as [e|].
  - cbn [Err snd]. unfold ret at 1. rewrite Tx_Close_run. reflexivity.
  - cbn [Err snd]. rewrite Redis_SAdd_uuid. cbv zeta.
    fold (SADD_index u userId).
    change (<[sessionRedisKey (UUID_String u) := session_entry (now (drawn w)) userId]>
              (store (drawn w))) with (with_session u userId w).
    set (db1 := with_session u userId w).
    set (w1 := sent (SET_session u userId) db1 (drawn w)).
    change (hd None (faults w1)) with (hd None (tl (faults w))).
    destruct (hd None (tl (faults w))) as [e|].
    + cbn [Err snd]. unfold ret at 1. rewrite Tx_Close_run. reflexivity.
    + change (store w1) with db1. change (now w1) with (now w).
      destruct (Err (readInt (fst (exec (now w) (SADD_index u userId) db1)))) as [e|];
        unfold ret at 1; rewrite Tx_Close_run; reflexivity.
Qed.

End Runs.

Section Created.

Variables (userId : Z) (w w1 : world) (t : string).
Hypothesis Hrun : CreateSession userId w = ((t, None), w1).

(** A session is only created from a generated token. *)
Lemma CreateSession_token : exists u us, uuids w = inr u :: us.
Proof.
  revert Hrun. unfold CreateSession, bind, uuid_NewV4, ret.
  destruct (uuids w) as [|[e|u] us]; [discriminate | discriminate | eauto].
Qed.

(** What a successful run leaves behind. *)
Lemma CreateSession_success :
  exists u,
    t = UUID_String u /\
    hd None (faults w) = None /\
    hd None (tl (faults w)) = None /\
    now w1 = now w /\
    exec (now w) (SADD_index u userId) (with_session u userId w) <>
      (ErrorReply WRONGTYPE, with_session u userId w) /\
    store w1 = snd (exec (now w) (SADD_index u userId) (with_session u userId w)).
Proof.
  destruct CreateSession_token as (u & us & Hgen).
  pose proof (CreateSession_run userId u us w Hgen) as Heq.
  rewrite Hrun in Heq. exists u.
  destruct (hd None (faults w)) as [e|]; [discriminate|].
  destruct (hd None (tl (faults w))) as [e|]; [discriminate|].
  cbv zeta in Heq.
  destruct (Err (readInt (fst (exec (now w) (SADD_index u userId) (with_session u userId w)))))
    as [e|] eqn:Herr; [discriminate|].
  injection Heq as -> ->. repeat split; try reflexivity.
  intros Hbad. rewrite Hbad in Herr. discriminate.
Qed.

(** The session record is there, untouched by the index update. *)
Lemma CreateSession_record :
  now w1 = now w /\
  store w1 !! sessionRedisKey t = Some (session_entry (now w) userId).
Proof.
  destruct CreateSession_success as (u & -> & _ & _ & Hnow & _ & ->).
  split; [exact Hnow|].
  unfold SADD_index. rewrite exec_SADD_frame.
  - unfold with_session. apply lookup_insert_eq.
  - intros H. symmetry in H. revert H. apply session_key_not_index_key.
Qed.

(** The index holds the binary form of the token. *)
Lemma CreateSession_index :
  exists u members ttl,
    t = UUID_String u /\
    store w1 !! sessionInvertedIndexRedisKey userId = Some (Entry (VSet members) ttl) /\
    UUID_MarshalBinary u ∈ members /\
    (find (now w) (store w) (sessionInvertedIndexRedisKey userId) = None -> 
     members = {[UUID_MarshalBinary u]} /\ ttl = None).
Proof.
  destruct CreateSession_success as (u & -> & _ & _ & _ & Hok & ->).
  exists u.
  pose proof (exec_SADD_reply (now w) (with_session u userId w)
                (sessionInvertedIndexRedisKey userId) (UUID_MarshalBinary u)) as Hr.
  fold (SADD_index u userId) in Hr.
  assert (Hfind : find (now w) (with_session u userId w) (sessionInvertedIndexRedisKey userId)
                  = find (now w) (store w) (sessionInvertedIndexRedisKey userId)).
  { unfold with_session. apply find_insert_ne, session_key_not_index_key. }
  rewrite Hfind in Hr.
  destruct (find (now w) (store w) (sessionInvertedIndexRedisKey userId))
    as [[[s|s] ttl]|].
  - contradiction.
  - destruct Hr as [n ->]. exists ({[UUID_MarshalBinary u]} ∪ s), ttl.
    repeat split; [apply lookup_insert_eq | set_solver | discriminate | discriminate].
  - rewrite Hr. exists {[UUID_MarshalBinary u]}, None.
    repeat split; [apply lookup_insert_eq | set_solver].
Qed.

End Created.

(** ** Session creation *)

(** Closed statements about sample runs are settled by evaluation, one
    conjunct at a time. *)
Ltac by_evaluation :=
  cbv zeta;
  repeat (apply conj; [vm_compute; reflexivity|]);
  try (vm_compute; reflexivity).

(** C10. If token generation fails, [CreateSession] returns the empty
    string and the generation error; no command is sent to the store, so
    the session records and the inverted index are what they were. *)
Theorem CreateSession_generation_failure
  (userId : Z) (w w' : world) (sessionKey : UUID) (e : error) :
  uuid_NewV4 w = ((sessionKey, Some e), w') ->
  CreateSession userId w = (("", Some e), w') /\
  store w' = store w /\ trace w' = trace w /\ faults w' = faults w.
Proof.
  intros Hgen. split.
  - unfold CreateSession, bind. rewrite Hgen. reflexivity.
  - revert Hgen. unfold uuid_NewV4.
    destruct (uuids w) as [|[e'|u] us]; intros [= <- <- <-]; auto.
Qed.

Lemma CreateSession_generation_failure_witness :
  CreateSession 42 (fresh [inl (OtherError "entropy source unavailable")]) =
    (("", Some (OtherError "entropy source unavailable")), fresh []) /\
  store (fresh []) = store (fresh [inl (OtherError "entropy source unavailable")]) /\
  trace (fresh []) = trace (fresh [inl (OtherError "entropy source unavailable")]) /\
  faults (fresh []) = faults (fresh [inl (OtherError "entropy source unavailable")]).
Proof.
  apply (CreateSession_generation_failure 42
           (fresh [inl (OtherError "entropy source unavailable")]) (fresh []) uuid_Nil).
  reflexivity.
Defined.

(** C1. For a user id that fits Go's [int] (every id the database
    issues), when [CreateSession] returns token [t] without error, an
    [AuthenticateSession t] that follows on the same keyspace, less than
    30 days later and with the store reachable, returns exactly that id. *)
Theorem CreateSession_then_AuthenticateSession
  (userId : Z) (w w1 w2 : world) (t : string) :
  0 <= userId <= MaxInt ->
  CreateSession userId w = ((t, None), w1) ->
  store w2 = store w1 ->
  now w1 <= now w2 < now w1 + 30 * 24 * 3600 * 1000 ->
  hd None (faults w2) = None ->
  fst (AuthenticateSession t w2) = (userId, None).
Proof.
  intros Hid Hrun Hstore Hnow Hup.
  destruct (CreateSession_record userId w w1 t Hrun) as [Hclock Hrec].
  unfold AuthenticateSession, bind. rewrite Redis_Get_run, Hup.
  unfold find. rewrite Hstore, Hrec.
  unfold live, session_entry. cbn [expire_at].
  destruct (Z.ltb_spec (now w2) (now w + 2592000 * 1000)) as [_|Hlate]; [|lia].
  unfold StringCmd_Int. cbn [Err snd fst].
  rewrite Atoi_FormatUint by exact Hid.
  unfold ret. cbn [fst]. now rewrite uint_small.
Qed.

Lemma CreateSession_then_AuthenticateSession_witness :
  let w1 := snd (CreateSession 42 (fresh [inr token_A])) in
  let w2 := World (store w1) (now w1 + 86400000) [] [] [] in
  CreateSession 42 (fresh [inr token_A]) =
    (("2c816d07-9499-4907-8ea3-1785dfa0f9a0", None), w1) /\
  fst (AuthenticateSession "2c816d07-9499-4907-8ea3-1785dfa0f9a0" w2) = (42, None).
Proof.
  intros w1 w2.
  assert (Hrun : CreateSession 42 (fresh [inr token_A]) =
                 (("2c816d07-9499-4907-8ea3-1785dfa0f9a0", None), w1))
    by (vm_compute; reflexivity).
  split; [exact Hrun|].
  apply (CreateSession_then_AuthenticateSession 42 (fresh [inr token_A]) w1 w2
           "2c816d07-9499-4907-8ea3-1785dfa0f9a0").
  - unfold MaxInt. lia.
  - exact Hrun.
  - reflexivity.
  - vm_compute. split; discriminate || reflexivity.
  - reflexivity.
Defined.



(** ** Session validation *)

(** C5. When the session record of a token is absent from the store
    (never written, expired, or removed) and the store answers,
    [AuthenticateSession] returns [ErrInvalidSessionToken]. Every other
    failure of the read is returned as it is: a connectivity failure, or
    the server's refusal when the key holds a set. None of those errors
    is [ErrInvalidSessionToken]. *)
Theorem AuthenticateSession_absent_record (token : string) (w : world) :
  (find (now w) (store w) (sessionRedisKey token) = None ->
   hd None (faults w) = None ->
   fst (AuthenticateSession token w) = (0, Some ErrInvalidSessionToken)) /\
  (forall e, hd None (faults w) = Some e -> e <> Nil ->
   fst (AuthenticateSession token w) = (0, Some (RedisError e))) /\
  (forall members ttl,
   find (now w) (store w) (sessionRedisKey token) = Some (Entry (VSet members) ttl) ->
   hd None (faults w) = None ->
   fst (AuthenticateSession token w) = (0, Some (RedisError WRONGTYPE))) /\
  (forall e, RedisError e <> ErrInvalidSessionToken).
Proof.
  unfold AuthenticateSession, bind. rewrite Redis_Get_run.
  repeat split.
  - intros Habsent Hup. rewrite Hup, Habsent. reflexivity.
  - intros e He Hnil. rewrite He.
    unfold StringCmd_Int, errors_Is, redis_Nil. cbn [Err snd fst].
    rewrite bool_decide_eq_false_2 by congruence. reflexivity.
  - intros members ttl Hset Hup. rewrite Hup, Hset. reflexivity.
  - discriminate.
Qed.

Lemma AuthenticateSession_absent_record_witness :
  fst (AuthenticateSession "2c816d07-9499-4907-8ea3-1785dfa0f9a0" (fresh [])) =
    (0, Some ErrInvalidSessionToken) /\
  fst (AuthenticateSession "2c816d07-9499-4907-8ea3-1785dfa0f9a0"
         (World {["session:2c816d07-9499-4907-8ea3-1785dfa0f9a0:user.id" :=
                    Entry (VString "42") (Some 2592000000)]} 2592000000 [] [] [])) =
    (0, Some ErrInvalidSessionToken) /\
  fst (AuthenticateSession "2c816d07-9499-4907-8ea3-1785dfa0f9a0"
         (World ∅ 0 [Some (ConnError "connection refused")] [] [])) =
    (0, Some (RedisError (ConnError "connection refused"))) /\
  fst (AuthenticateSession "2c816d07-9499-4907-8ea3-1785dfa0f9a0"
         (World {["session:2c816d07-9499-4907-8ea3-1785dfa0f9a0:user.id" :=
                    Entry (VSet ∅) None]} 0 [] [] [])) =
    (0, Some (RedisError WRONGTYPE)).
Proof.
  split; [|split; [|split]].
  - apply (AuthenticateSession_absent_record
             "2c816d07-9499-4907-8ea3-1785dfa0f9a0" (fresh [])); reflexivity.
  - apply (AuthenticateSession_absent_record
             "2c816d07-9499-4907-8ea3-1785dfa0f9a0"
             (World {["session:2c816d07-9499-4907-8ea3-1785dfa0f9a0:user.id" :=
                        Entry (VString "42") (Some 2592000000)]} 2592000000 [] [] []));
      vm_compute; reflexivity.
  - apply (AuthenticateSession_absent_record
             "2c816d07-9499-4907-8ea3-1785dfa0f9a0"
             (World ∅ 0 [Some (ConnError "connection refused")] [] []));
      [reflexivity | discriminate].
  - apply (AuthenticateSession_absent_record
             "2c816d07-9499-4907-8ea3-1785dfa0f9a0"
             (World {["session:2c816d07-9499-4907-8ea3-1785dfa0f9a0:user.id" :=
                        Entry (VSet ∅) None]} 0 [] [] []))
      with (members := ∅) (ttl := None); reflexivity.
Defined.

(** ** Bulk invalidation *)

(** Every run of [InvalidateSessions]: the first call is refused by the
    client's encoder, so the function returns there. *)
Lemma InvalidateSessions_run (userId : Z) (w : world) :
  InvalidateSessions userId w = (Some (RedisError (CantMarshal "*[]string")), w).
Proof.
  unfold InvalidateSessions, bind.
  rewrite Redis_GetSet_pointer. reflexivity.
Qed.


(** C3 (violated by the code). [InvalidateSessions] never reports
    success: for every user and every state of the store, hence also
    when the user has no index entry, it returns the encoder's error. *)
Theorem InvalidateSessions_never_succeeds (userId : Z) (w : world) :
  fst (InvalidateSessions userId w) = Some (RedisError (CantMarshal "*[]string")).
Proof. now rewrite InvalidateSessions_run. Qed.




(** ** The two key forms *)

(** Whenever a session is created, the member added to the index is the
    16-byte binary form of the token, which is not the text used in the
    key of the session record. *)
Lemma CreateSession_member_is_binary (userId : Z) (w w1 : world) (t : string) :
  CreateSession userId w = ((t, None), w1) ->
  exists u members ttl,
    t = UUID_String u /\
    store w1 !! sessionRedisKey t = Some (session_entry (now w) userId) /\
    store w1 !! sessionInvertedIndexRedisKey userId = Some (Entry (VSet members) ttl) /\
    UUID_MarshalBinary u ∈ members /\
    UUID_MarshalBinary u <> t.
Proof.
  intros Hrun.
  destruct (CreateSession_index userId w w1 t Hrun) as (u & members & ttl & -> & Hidx & Hin & _).
  destruct (CreateSession_record userId w w1 _ Hrun) as [_ Hrec].
  exists u, members, ttl. repeat split; auto.
  apply UUID_MarshalBinary_not_String.
Qed.

(** C6 (violated by the code). Creating a session for user 42 on an
    empty store with token 2c816d07-9499-4907-8ea3-1785dfa0f9a0: the
    session record is under [session:<token>:user.id] and the index under
    [user:42:session.keys], but the only member of the index is the
    16-byte binary form of the token; the token's text is not a member. *)
Theorem CreateSession_index_member :
  let r := CreateSession 42 (fresh [inr token_A]) in
  let t := "2c816d07-9499-4907-8ea3-1785dfa0f9a0" in
  fst r = (t, None) /\
  sessionRedisKey t = "session:2c816d07-9499-4907-8ea3-1785dfa0f9a0:user.id" /\
  sessionInvertedIndexRedisKey 42 = "user:42:session.keys" /\
  store (snd r) !! sessionRedisKey t = Some (Entry (VString "42") (Some 2592000000)) /\
  store (snd r) !! sessionInvertedIndexRedisKey 42 =
    Some (Entry (VSet {[UUID_MarshalBinary token_A]}) None) /\
  String.length (UUID_MarshalBinary token_A) = 16%nat /\
  t ∉ ({[UUID_MarshalBinary token_A]} : gset string).
Proof.
  by_evaluation.
  rewrite elem_of_singleton. discriminate.
Qed.

(** ** The transaction *)

(** [CreateSession] never sends WATCH: the transaction helper is called
    without keys. *)
Lemma CreateSession_watches_nothing (userId : Z) (w : world) (keys : list string) :
  In (WATCH keys) (trace (snd (CreateSession userId w))) -> In (WATCH keys) (trace w).
Proof.
  destruct (uuids w) as [|[e|u] us] eqn:Hgen.
  - unfold CreateSession, bind, uuid_NewV4. rewrite Hgen. trivial.
  - unfold CreateSession, bind, uuid_NewV4. rewrite Hgen. trivial.
  - rewrite (CreateSession_run userId u us w Hgen).
    assert (Hstep : forall c db w', c <> WATCH keys ->
              In (WATCH keys) (trace (sent c db w')) -> In (WATCH keys) (trace w')).
    { intros c db w' Hc. cbn. rewrite in_app_iff. cbn. intuition congruence. }
    destruct (hd None (faults w)) as [e|]; [|destruct (hd None (tl (faults w))) as [e|]];
      cbv zeta;
      try destruct (Err (readInt (fst (exec (now w) (SADD_index u userId)
                                        (with_session u userId w))))) as [e|];
      cbn [snd]; intros H;
      repeat (apply Hstep in H; [|discriminate]); exact H.
Qed.

(** C8 (violated by the code). User 42, empty store, and the connection
    lost on the second command: [CreateSession] fails, the commands sent
    are SET, SADD and UNWATCH (no WATCH, nothing queued for a commit), and
    the session record written by the first command stays in the store
    without an index entry. *)
Theorem CreateSession_partial_write :
  let w := World ∅ 0 [None; Some (ConnError "connection reset by peer")] []
                 [inr token_A] in
  let r := CreateSession 42 w in
  fst r = ("", Some (RedisError (ConnError "connection reset by peer"))) /\
  trace (snd r) =
    [SET "session:2c816d07-9499-4907-8ea3-1785dfa0f9a0:user.id" "42" (Some (EX 2592000));
     SADD "user:42:session.keys" (UUID_MarshalBinary token_A);
     UNWATCH] /\
  store (snd r) !! "session:2c816d07-9499-4907-8ea3-1785dfa0f9a0:user.id" =
    Some (Entry (VString "42") (Some 2592000000)) /\
  store (snd r) !! "user:42:session.keys" = None.
Proof.
  by_evaluation.
Qed.

(** ** Password authentication *)

Section Password.

Variable User : Type.
Variable Find : string -> option User * option error.
Variable Compare : option User -> string -> outcome (bool * option error).

(** The error of the directory lookup has no influence on the result. *)
Lemma AuthenticateUser_lookup_error_dropped (authUser : LoginDto) :
  AuthenticateUser User Find Compare authUser =
  AuthenticateUser User (fun id => (fst (Find id), None)) Compare authUser.
Proof.
  unfold AuthenticateUser.
  destruct (Find (UsernameOrEmail authUser)) as [user err]. reflexivity.
Qed.

(** A found user whose comparison returns false: [ErrWrongPassword]. *)
Lemma AuthenticateUser_wrong_password (authUser : LoginDto) (user : User) :
  Find (UsernameOrEmail authUser) = (Some user, None) ->
  Compare (Some user) (Password authUser) = Returns (false, None) ->
  AuthenticateUser User Find Compare authUser = Returns (None, Some ErrWrongPassword).
Proof. intros Hf Hc. unfold AuthenticateUser. now rewrite Hf, Hc. Qed.

(** A found user whose comparison returns true: the user record. *)
Lemma AuthenticateUser_success (authUser : LoginDto) (user : User) :
  Find (UsernameOrEmail authUser) = (Some user, None) ->
  Compare (Some user) (Password authUser) = Returns (true, None) ->
  AuthenticateUser User Find Compare authUser = Returns (Some user, None).
Proof. intros Hf Hc. unfold AuthenticateUser. now rewrite Hf, Hc. Qed.

End Password.

(** C4 (violated by the code). With a directory that holds only alice,
    the lookup of "nobody" reports [ErrUserNotFound] with a nil user;
    [AuthenticateUser] does not return that error: it goes on to compare
    the password through the nil user, which panics. The other two
    outcomes are as specified: alice with a wrong password gets
    [ErrWrongPassword], alice with her password gets her record. *)
Theorem AuthenticateUser_unknown_user :
  let auth := AuthenticateUser UserRecord (FindByUsernameOrEmail [alice])
                UserRecord_ComparePassword in
  FindByUsernameOrEmail [alice] "nobody" = (None, Some ErrUserNotFound) /\
  auth {| UsernameOrEmail := "nobody"; Password := "correct horse" |} = Panics /\
  auth {| UsernameOrEmail := "alice"; Password := "battery staple" |} =
    Returns (None, Some ErrWrongPassword) /\
  auth {| UsernameOrEmail := "alice@example.org"; Password := "correct horse" |} =
    Returns (Some alice, None).
Proof. cbv zeta. repeat split; reflexivity. Qed.

(** ** The bound on user ids *)

(** Above [MaxInt] the stored id cannot be read back: the session is
    created, and validation fails with a range error. *)
Example AuthenticateSession_large_id :
  let c := CreateSession (2 ^ 63) (fresh [inr token_A]) in
  fst c = ("2c816d07-9499-4907-8ea3-1785dfa0f9a0", None) /\
  fst (AuthenticateSession "2c816d07-9499-4907-8ea3-1785dfa0f9a0" (snd c)) =
    (0, Some (NumError "Atoi" "9223372036854775808" ErrRange)).
Proof. by_evaluation. Qed.

(** * Further properties of the session service *)

(** ** Key names, both ways *)

Lemma FormatUint_inj (n m : Z) : 0 <= n -> 0 <= m -> FormatUint n = FormatUint m -> n = m.
Proof.
  intros Hn Hm H.
  pose proof (uint_of_string_FormatUint n) as Pn.
  pose proof (uint_of_string_FormatUint m) as Pm.
  rewrite H, Pm in Pn. injection Pn as Pn.
  apply DecimalN.Unsigned.to_uint_inj in Pn. lia.
Qed.

(** X1. The token can be read off a session-record key: two tokens with
    the same key are the same token. *)
Theorem sessionRedisKey_injective (t1 t2 : string) :
  sessionRedisKey t1 = sessionRedisKey t2 -> t1 = t2.
Proof.
  unfold sessionRedisKey. intros H.
  apply append_inj_l in H. now apply append_inj_r in H.
Qed.

Lemma sessionRedisKey_injective_witness :
  sessionRedisKey "2c816d07" = sessionRedisKey "2c816d07" /\ "2c816d07" = "2c816d07".
Proof.
  split; [reflexivity|].
  apply (sessionRedisKey_injective "2c816d07" "2c816d07"). reflexivity.
Defined.

(** X2. Two users never share an index key. *)
Theorem sessionInvertedIndexRedisKey_injective (a b : Z) :
  0 <= a -> 0 <= b ->
  sessionInvertedIndexRedisKey a = sessionInvertedIndexRedisKey b -> a = b.
Proof.
  unfold sessionInvertedIndexRedisKey. intros Ha Hb H.
  apply append_inj_l, append_inj_r in H. now apply FormatUint_inj.
Qed.

Lemma sessionInvertedIndexRedisKey_injective_witness :
  sessionInvertedIndexRedisKey 42 = "user:42:session.keys" /\ 42 = 42.
Proof.
  split; [reflexivity|].
  apply (sessionInvertedIndexRedisKey_injective 42 42); [lia | lia | reflexivity].
Defined.

(** X3. Whatever string is presented as a token, and whatever the user
    id, the session-record key is not an index key. *)
Theorem session_keys_apart (sessionKey : string) (userId : Z) :
  sessionRedisKey sessionKey <> sessionInvertedIndexRedisKey userId.
Proof. unfold sessionRedisKey, sessionInvertedIndexRedisKey. simpl. discriminate. Qed.

(** ** Validation is a single read *)



(** ** Expiry *)



(** ** User ids beyond [MaxInt] *)

(** X6. A session created for a user id above [MaxInt] never
    authenticates: the id is stored in full, and reading it back fails
    with a range error, which is returned as it is. *)
Theorem CreateSession_large_id
  (userId : Z) (w w1 w2 : world) (t : string) :
  MaxInt < userId ->
  CreateSession userId w = ((t, None), w1) ->
  store w2 = store w1 ->
  now w1 <= now w2 < now w1 + 30 * 24 * 3600 * 1000 ->
  hd None (faults w2) = None ->
  fst (AuthenticateSession t w2) =
    (0, Some (NumError "Atoi" (FormatUint userId) ErrRange)).
Proof.
  intros Hid Hrun Hstore Hnow Hup.
  destruct (CreateSession_record userId w w1 t Hrun) as [Hclock Hrec].
  unfold AuthenticateSession, bind. rewrite Redis_Get_run, Hup.
  unfold find. rewrite Hstore, Hrec.
  unfold live, session_entry. cbn [expire_at].
  destruct (Z.ltb_spec (now w2) (now w + 2592000 * 1000)) as [_|Hlate]; [|lia].
  unfold StringCmd_Int. cbn [Err snd fst].
  rewrite Atoi_FormatUint_range by exact Hid. reflexivity.
Qed.

Lemma CreateSession_large_id_witness :
  let w1 := snd (CreateSession (2 ^ 64 - 1) (fresh [inr token_A])) in
  fst (AuthenticateSession "2c816d07-9499-4907-8ea3-1785dfa0f9a0" w1) =
    (0, Some (NumError "Atoi" "18446744073709551615" ErrRange)).
Proof.
  intros w1.
  apply (CreateSession_large_id (2 ^ 64 - 1) (fresh [inr token_A]) w1 w1
           "2c816d07-9499-4907-8ea3-1785dfa0f9a0").
  - vm_compute; reflexivity.
  - vm_compute; reflexivity.
  - reflexivity.
  - vm_compute. split; discriminate || reflexivity.
  - reflexivity.
Defined.

(** ** What a creation leaves alone *)

(** Keys other than the two [CreateSession] writes to keep their entry. *)
Lemma CreateSession_other_keys (userId : Z) (w : world) (k : string) :
  k <> sessionInvertedIndexRedisKey userId ->
  (forall u us, uuids w = inr u :: us -> k <> sessionRedisKey (UUID_String u)) ->
  store (snd (CreateSession userId w)) !! k = store w !! k.
Proof.
  intros Hidx Hkey.
  destruct (uuids w) as [|[e|u] us] eqn:Hgen.
  - unfold CreateSession, bind, uuid_NewV4. rewrite Hgen. reflexivity.
  - unfold CreateSession, bind, uuid_NewV4. rewrite Hgen. reflexivity.
  - specialize (Hkey u us eq_refl).
    rewrite (CreateSession_run userId u us w Hgen).
    assert (Hset : with_session u userId w !! k = store w !! k).
    { unfold with_session. now apply lookup_insert_ne. }
    assert (Hsadd : snd (exec (now w) (SADD_index u userId) (with_session u userId w)) !! k
                    = store w !! k).
    { unfold SADD_index. rewrite exec_SADD_frame by auto. exact Hset. }
    destruct (hd None (faults w)) as [e|]; [reflexivity|].
    destruct (hd None (tl (faults w))) as [e|]; [exact Hset|].
    cbv zeta.
    destruct (Err (readInt (fst (exec (now w) (SADD_index u userId)
                                   (with_session u userId w))))) as [e|];
      exact Hsadd.
Qed.

(** X7. Whatever happens during [CreateSession], the only keys it can
    change are the session-record key of the token just generated and the
    index key of the user: every other session record and every other
    user's index entry is as before. *)
Theorem CreateSession_frame (userId : Z) (w : world) (k : string) :
  k <> sessionInvertedIndexRedisKey userId ->
  (forall u us, uuids w = inr u :: us -> k <> sessionRedisKey (UUID_String u)) ->
  store (snd (CreateSession userId w)) !! k = store w !! k.
Proof. apply CreateSession_other_keys. Qed.

Lemma CreateSession_frame_witness :
  let w1 := snd (CreateSession 42 (fresh [inr token_A])) in
  store (snd (CreateSession 7 (World (store w1) 0 [] [] [inr token_B])))
    !! "session:2c816d07-9499-4907-8ea3-1785dfa0f9a0:user.id" =
  store w1 !! "session:2c816d07-9499-4907-8ea3-1785dfa0f9a0:user.id".
Proof.
  intros w1.
  apply (CreateSession_frame 7 (World (store w1) 0 [] [] [inr token_B])
           "session:2c816d07-9499-4907-8ea3-1785dfa0f9a0:user.id").
  - vm_compute. discriminate.
  - intros u us [= <- <-]. vm_compute. discriminate.
Defined.

(** ** Several sessions *)

Section Generated.

Variables (userId : Z) (u : UUID) (us : list (error + UUID)) (w w1 : world) (t : string).
Hypothesis Hgen : uuids w = inr u :: us.
Hypothesis Hrun : CreateSession userId w = ((t, None), w1).

(** The token returned is the text of the outcome drawn, and the
    entropy source has moved on by one. *)
Lemma CreateSession_drawn : t = UUID_String u /\ uuids w1 = us /\ now w1 = now w.
Proof.
  pose proof (CreateSession_run userId u us w Hgen) as Heq.
  rewrite Hrun in Heq.
  destruct (hd None (faults w)) as [e|]; [discriminate|].
  destruct (hd None (tl (faults w))) as [e|]; [discriminate|].
  cbv zeta in Heq.
  destruct (Err (readInt (fst (exec (now w) (SADD_index u userId)
                                 (with_session u userId w))))) as [e|];
    [discriminate|].
  injection Heq as -> ->. unfold drawn. rewrite Hgen. auto.
Qed.

(** After a creation the index entry is a live set that holds the new
    member and every member it held before. *)
Lemma CreateSession_index_live :
  exists members ttl,
    find (now w) (store w1) (sessionInvertedIndexRedisKey userId)
      = Some (Entry (VSet members) ttl) /\
    UUID_MarshalBinary u ∈ members /\
    (forall old ttl0,
       find (now w) (store w) (sessionInvertedIndexRedisKey userId)
         = Some (Entry (VSet old) ttl0) -> old ⊆ members).
Proof.
  destruct CreateSession_drawn as (-> & _ & _).
  destruct (CreateSession_success userId w w1 _ Hrun) as (u' & Ht & _ & _ & _ & Hok & Hst).
  pose proof (CreateSession_run userId u us w Hgen) as Heq.
  rewrite Hrun in Heq.
  destruct (hd None (faults w)) as [e|]; [discriminate|].
  destruct (hd None (tl (faults w))) as [e|]; [discriminate|].
  cbv zeta in Heq.
  unfold SADD_index in Heq.
  set (idx := sessionInvertedIndexRedisKey userId) in *.
  pose proof (exec_SADD_reply (now w) (with_session u userId w) idx (UUID_MarshalBinary u)) as Hr.
  assert (Hfind : find (now w) (with_session u userId w) idx = find (now w) (store w) idx).
  { unfold with_session. apply find_insert_ne, session_key_not_index_key. }
  rewrite Hfind in Hr.
  destruct (find (now w) (store w) idx) as [[[s|s] ttl]|] eqn:Hold.
  - rewrite Hr in Heq. discriminate.
  - destruct Hr as [n Hr]. rewrite Hr in Heq. cbn in Heq. injection Heq as ->.
    exists ({[UUID_MarshalBinary u]} ∪ s), ttl. cbn [store sent].
    unfold find. rewrite lookup_insert_eq.
    assert (Hl : live (now w) (Entry (VSet s) ttl) = true).
    { revert Hold. unfold find. destruct (store w !! idx) as [e0|]; [|discriminate].
      destruct (live (now w) e0) eqn:Hl0; [|discriminate]. now intros [= ->]. }
    unfold live in *. cbn [expire_at] in *. rewrite Hl.
    repeat split; [set_solver|]. intros old ttl0 [= <- <-]. set_solver.
  - rewrite Hr in Heq. cbn in Heq. injection Heq as ->.
    exists {[UUID_MarshalBinary u]}, None. cbn [store sent].
    unfold find. rewrite lookup_insert_eq. cbn.
    repeat split; [set_solver|]. discriminate.
Qed.

End Generated.

(** A live session record of a valid id authenticates. *)
Lemma AuthenticateSession_record (userId t0 : Z) (token : string) (w : world) :
  0 <= userId <= MaxInt ->
  store w !! sessionRedisKey token = Some (session_entry t0 userId) ->
  now w < t0 + 2592000 * 1000 ->
  hd None (faults w) = None ->
  fst (AuthenticateSession token w) = (userId, None).
Proof.
  intros Hid Hrec Hnow Hup.
  unfold AuthenticateSession, bind. rewrite Redis_Get_run, Hup.
  unfold find. rewrite Hrec.
  unfold live, session_entry. cbn [expire_at].
  destruct (Z.ltb_spec (now w) (t0 + 2592000 * 1000)) as [_|Hlate]; [|lia].
  unfold StringCmd_Int. cbn [Err snd fst].
  rewrite Atoi_FormatUint by exact Hid.
  unfold ret. cbn [fst]. now rewrite uint_small.
Qed.

(** X8. Two sessions created one after the other for the same user are
    both valid afterwards, and the user's index entry holds a member for
    each of them. *)
Theorem CreateSession_twice
  (userId : Z) (u1 u2 : UUID) (us : list (error + UUID))
  (w w1 w2 w3 : world) (t1 t2 : string) :
  0 <= userId <= MaxInt ->
  uuids w = inr u1 :: inr u2 :: us ->
  CreateSession userId w = ((t1, None), w1) ->
  CreateSession userId w1 = ((t2, None), w2) ->
  store w3 = store w2 ->
  now w <= now w3 < now w + 30 * 24 * 3600 * 1000 ->
  hd None (faults w3) = None ->
  fst (AuthenticateSession t1 w3) = (userId, None) /\
  fst (AuthenticateSession t2 w3) = (userId, None) /\
  exists members ttl,
    store w2 !! sessionInvertedIndexRedisKey userId = Some (Entry (VSet members) ttl) /\
    UUID_MarshalBinary u1 ∈ members /\ UUID_MarshalBinary u2 ∈ members.
Proof.
  intros Hid Hgen Hrun1 Hrun2 Hstore Hnow Hup.
  destruct (CreateSession_drawn userId u1 _ w w1 t1 Hgen Hrun1) as (Ht1 & Hgen1 & Hclock1).
  destruct (CreateSession_drawn userId u2 _ w1 w2 t2 Hgen1 Hrun2) as (Ht2 & _ & Hclock2).
  destruct (CreateSession_record userId w w1 t1 Hrun1) as [_ Hrec1].
  destruct (CreateSession_record userId w1 w2 t2 Hrun2) as [_ Hrec2].
  rewrite Hclock1 in Hrec2.
  assert (Hrec1' : store w2 !! sessionRedisKey t1 = Some (session_entry (now w) userId)).
  { destruct (decide (sessionRedisKey t1 = sessionRedisKey t2)) as [Heq|Hne].
    - rewrite Heq. exact Hrec2.
    - replace w2 with (snd (CreateSession userId w1)) by now rewrite Hrun2.
      rewrite CreateSession_other_keys; [exact Hrec1 | apply session_key_not_index_key |].
      intros u us' Hg. rewrite Hgen1 in Hg. injection Hg as <- _.
      rewrite <- Ht2. exact Hne. }
  split; [|split].
  - apply (AuthenticateSession_record userId (now w));
      [exact Hid | now rewrite Hstore | lia | exact Hup].
  - apply (AuthenticateSession_record userId (now w));
      [exact Hid | now rewrite Hstore | lia | exact Hup].
  - destruct (CreateSession_index_live userId u1 _ w w1 t1 Hgen Hrun1)
      as (m1 & ttl1 & Hlive1 & Hin1 & _).
    destruct (CreateSession_index_live userId u2 _ w1 w2 t2 Hgen1 Hrun2)
      as (m2 & ttl2 & Hlive2 & Hin2 & Hold).
    rewrite Hclock1 in Hlive2, Hold.
    specialize (Hold m1 ttl1 Hlive1).
    exists m2, ttl2. repeat split; [|exact (elem_of_weaken _ _ _ Hin1 Hold)|exact Hin2].
    revert Hlive2. unfold find.
    destruct (store w2 !! sessionInvertedIndexRedisKey userId) as [e|]; [|discriminate].
    destruct (live (now w) e); [|discriminate]. now intros [= ->].
Qed.

Lemma CreateSession_twice_witness :
  let c1 := CreateSession 42 (fresh [inr token_A; inr token_B]) in
  let c2 := CreateSession 42 (snd c1) in
  fst (AuthenticateSession "2c816d07-9499-4907-8ea3-1785dfa0f9a0" (snd c2)) = (42, None) /\
  fst (AuthenticateSession "7d444840-9dc0-41d1-b245-5ffd16a5c0d8" (snd c2)) = (42, None) /\
  exists members ttl,
    store (snd c2) !! sessionInvertedIndexRedisKey 42 = Some (Entry (VSet members) ttl) /\
    UUID_MarshalBinary token_A ∈ members /\ UUID_MarshalBinary token_B ∈ members.
Proof.
  intros c1 c2.
  apply (CreateSession_twice 42 token_A token_B [] (fresh [inr token_A; inr token_B])
           (snd c1) (snd c2) (snd c2)).
  - unfold MaxInt. lia.
  - reflexivity.
  - vm_compute; reflexivity.
  - vm_compute; reflexivity.
  - reflexivity.
  - vm_compute. split; discriminate || reflexivity.
  - reflexivity.
Defined.

(** ** Tokens are told apart *)

Lemma hexdigit_inj (n m : N) :
  (n < 16)%N -> (m < 16)%N -> hexdigit n = hexdigit m -> n = m.
Proof.
  intros Hn Hm.
  destruct n as [|p]; [|do 4 (try destruct p as [p|p|])]; try lia;
    (destruct m as [|q]; [|do 4 (try destruct q as [q|q|])]; try lia);
    cbn; intros H; reflexivity || discriminate H.
Qed.

(** The two digits written for a byte determine the byte. *)
Lemma hex_byte_inj (a b : ascii) :
  hexdigit (N_of_ascii a / 16) = hexdigit (N_of_ascii b / 16) ->
  hexdigit (N_of_ascii a mod 16) = hexdigit (N_of_ascii b mod 16) ->
  a = b.
Proof.
  intros Hhi Hlo.
  pose proof (N_ascii_bounded a) as Ba. pose proof (N_ascii_bounded b) as Bb.
  apply hexdigit_inj in Hhi;
    [|apply N.Div0.div_lt_upper_bound; lia|apply N.Div0.div_lt_upper_bound; lia].
  apply hexdigit_inj in Hlo; [|apply N.mod_lt; lia|apply N.mod_lt; lia].
  assert (H : N_of_ascii a = N_of_ascii b).
  { rewrite (N.div_mod (N_of_ascii a) 16), (N.div_mod (N_of_ascii b) 16) by lia.
    now rewrite Hhi, Hlo. }
  rewrite <- (ascii_N_embedding a), <- (ascii_N_embedding b). now rewrite H.
Qed.

Lemma hex_Encode_inj (l l' : list ascii) : hex_Encode l = hex_Encode l' -> l = l'.
Proof.
  revert l'. induction l as [|a l IH]; intros [|b l'] H; cbn in H;
    try discriminate; [reflexivity|].
  injection H as Hhi Hlo Hrest.
  f_equal; [now apply hex_byte_inj | now apply IH].
Qed.

(** Strings that start with parts of the same length agree part by part. *)
Lemma append_inj_length (a a' b b' : string) :
  String.length a = String.length a' -> a +:+ b = a' +:+ b' -> a = a' /\ b = b'.
Proof.
  revert a'. induction a as [|c a IH]; intros [|c' a'] Hlen H; cbn in *;
    try discriminate; [auto|].
  injection Hlen as Hlen. injection H as -> H.
  destruct (IH a' Hlen H) as [-> ->]. auto.
Qed.

(** The five groups of the text cover the whole token. *)
Lemma slices_cover (u : list ascii) :
  u = (slice u 0 4 ++ slice u 4 6 ++ slice u 6 8 ++ slice u 8 10 ++ skipn 10 u)%list.
Proof.
  unfold slice. do 10 (destruct u as [|? u]; [reflexivity|]). reflexivity.
Qed.

(** The text of a 16-byte token determines the token. *)
Lemma UUID_String_inj (u u' : UUID) :
  length u = 16%nat -> length u' = 16%nat -> UUID_String u = UUID_String u' -> u = u'.
Proof.
  intros Hu Hu' H. unfold UUID_String, slice in H.
  repeat match type of H with
  | hex_Encode ?x +:+ _ = hex_Encode ?y +:+ _ =>
      let Hx := fresh "Hx" in
      apply append_inj_length in H;
      [destruct H as [Hx H]; apply hex_Encode_inj in Hx
      |rewrite !length_hex_Encode, !length_firstn, !length_skipn; lia]
  | "-" +:+ _ = "-" +:+ _ => apply append_inj_l in H
  end.
  apply hex_Encode_inj in H.
  rewrite (slices_cover u), (slices_cover u'). unfold slice.
  now rewrite Hx, Hx0, Hx1, Hx2, H.
Qed.

(** X9. When the generator yields two different tokens for two creations
    in a row, the texts returned to the callers differ. *)
Theorem CreateSession_distinct_tokens
  (a b : Z) (u1 u2 : UUID) (us : list (error + UUID)) (w w1 w2 : world) (t1 t2 : string) :
  uuids w = inr u1 :: inr u2 :: us ->
  length u1 = 16%nat -> length u2 = 16%nat -> u1 <> u2 ->
  CreateSession a w = ((t1, None), w1) ->
  CreateSession b w1 = ((t2, None), w2) ->
  t1 <> t2.
Proof.
  intros Hgen Hl1 Hl2 Hne Hrun1 Hrun2 Heq.
  destruct (CreateSession_drawn a u1 _ w w1 t1 Hgen Hrun1) as (-> & Hgen1 & _).
  destruct (CreateSession_drawn b u2 _ w1 w2 t2 Hgen1 Hrun2) as (-> & _ & _).
  apply Hne. now apply UUID_String_inj.
Qed.

Lemma CreateSession_distinct_tokens_witness :
  "2c816d07-9499-4907-8ea3-1785dfa0f9a0" <> "7d444840-9dc0-41d1-b245-5ffd16a5c0d8".
Proof.
  apply (CreateSession_distinct_tokens 42 7 token_A token_B []
           (fresh [inr token_A; inr token_B])
           (snd (CreateSession 42 (fresh [inr token_A; inr token_B])))
           (snd (CreateSession 7 (snd (CreateSession 42 (fresh [inr token_A; inr token_B])))))).
  - reflexivity.
  - reflexivity.
  - reflexivity.
  - vm_compute. discriminate.
  - vm_compute; reflexivity.
  - vm_compute; reflexivity.
Defined.

(** ** What validation accepts *)

(** Signed decimal text is read back exactly. *)
Lemma Atoi_FormatInt (v : Z) : MinInt <= v <= MaxInt -> Atoi (FormatInt v) = (v, None).
Proof.
  intros Hv. unfold FormatInt.
  destruct (Z.ltb_spec v 0) as [Hneg|Hpos].
  - unfold Atoi. cbn [Ascii.eqb Bool.eqb].
    rewrite uint_of_string_FormatUint.
    rewrite DecimalN.Unsigned.of_to, Z2N.id by lia.
    rewrite Z.opp_involutive.
    unfold MinInt, MaxInt in *.
    destruct (Z.leb_spec (- 2 ^ 63) v); [|lia].
    destruct (Z.leb_spec v (2 ^ 63 - 1)); [|lia].
    reflexivity.
  - apply Atoi_FormatUint. lia.
Qed.

(** X10. The record of a token is read as a signed integer and then
    converted: whatever integer text is stored under the key, including a
    negative one, is accepted, and the user id returned is that integer
    modulo 2^64. *)
Theorem AuthenticateSession_signed_text
  (token : string) (v : Z) (ttl : option Z) (w : world) :
  MinInt <= v <= MaxInt ->
  find (now w) (store w) (sessionRedisKey token) = Some (Entry (VString (FormatInt v)) ttl) ->
  hd None (faults w) = None ->
  fst (AuthenticateSession token w) = (v mod 2 ^ 64, None).
Proof.
  intros Hv Hrec Hup.
  unfold AuthenticateSession, bind. rewrite Redis_Get_run, Hup, Hrec.
  unfold StringCmd_Int. cbn [Err snd fst].
  now rewrite Atoi_FormatInt.
Qed.

Lemma AuthenticateSession_signed_text_witness :
  fst (AuthenticateSession "2c816d07"
         (World {["session:2c816d07:user.id" := Entry (VString "-1") None]} 0 [] [] [])) =
  (18446744073709551615, None).
Proof.
  apply (AuthenticateSession_signed_text "2c816d07" (-1) None
           (World {["session:2c816d07:user.id" := Entry (VString "-1") None]} 0 [] [] [])).
  - vm_compute. split; discriminate.
  - vm_compute; reflexivity.
  - reflexivity.
Defined.

(** ** Who is let in by password *)

Section PasswordOutcome.

Variable User : Type.
Variable Find : string -> option User * option error.
Variable Compare : option User -> string -> outcome (bool * option error).

(** X11. [AuthenticateUser] returns without error only when the
    comparison returned true without error, and what it then returns is
    the pointer the lookup gave. Whenever it returns an error it returns
    no user, and the error is [ErrWrongPassword] after a false
    comparison or else the comparison's own error. It panics exactly
    when the comparison does. *)
Theorem AuthenticateUser_outcomes (authUser : LoginDto) :
  let found := fst (Find (UsernameOrEmail authUser)) in
  let compared := Compare found (Password authUser) in
  let result := AuthenticateUser User Find Compare authUser in
  (forall user, result = Returns (user, None) ->
     compared = Returns (true, None) /\ user = found) /\
  (forall user e, result = Returns (user, Some e) ->
     user = None /\
     (compared = Returns (false, None) /\ e = ErrWrongPassword \/
      exists matched, compared = Returns (matched, Some e))) /\
  (result = Panics <-> compared = Panics).
Proof.
  cbv zeta. unfold AuthenticateUser.
  destruct (Find (UsernameOrEmail authUser)) as [found err]. cbn [fst].
  destruct (Compare found (Password authUser)) as [[[|] [e|]]|];
    (split; [|split; [|split]]); try discriminate; try reflexivity.
  - intros user e' [= <- <-]. eauto.
  - intros user [= <-]. auto.
  - intros user e' [= <- <-]. eauto.
  - intros user e' [= <- <-]. auto.
Qed.

End PasswordOutcome.

Lemma AuthenticateUser_outcomes_witness :
  UserRecord_ComparePassword (Some alice) "correct horse" = Returns (true, None) /\
  Some alice = fst (FindByUsernameOrEmail [alice] "alice").
Proof.
  apply (AuthenticateUser_outcomes UserRecord (FindByUsernameOrEmail [alice])
           UserRecord_ComparePassword
           {| UsernameOrEmail := "alice"; Password := "correct horse" |}).
  reflexivity.
Defined.

(** * Properties of package [projects] *)

(** ** Conversions and text *)

Lemma int_range (x : Z) : MinInt <= int x <= MaxInt.
Proof.
  unfold int, MinInt, MaxInt.
  pose proof (Z.mod_pos_bound (x + 2 ^ 63) (2 ^ 64) ltac:(lia)). lia.
Qed.

Lemma uint_int (x : Z) : 0 <= x < 2 ^ 64 -> uint (int x) = x.
Proof.
  intros Hx. unfold uint, int.
  destruct (Z.lt_ge_cases x (2 ^ 63)) as [Hlo|Hhi].
  - rewrite (Z.mod_small (x + 2 ^ 63)) by lia.
    replace (x + 2 ^ 63 - 2 ^ 63) with x by lia. apply Z.mod_small. lia.
  - replace (x + 2 ^ 63) with (x - 2 ^ 63 + 1 * 2 ^ 64) by lia.
    rewrite Z_mod_plus_full, (Z.mod_small (x - 2 ^ 63)) by lia.
    replace (x - 2 ^ 63 - 2 ^ 63) with (x + (-1) * 2 ^ 64) by lia.
    rewrite Z_mod_plus_full. apply Z.mod_small. lia.
Qed.

Lemma strings_Split_cons (s : string) (sep : ascii) :
  exists piece pieces, strings_Split s sep = piece :: pieces.
Proof.
  destruct s as [|c r]; cbn; [eauto|].
  destruct (Ascii.eqb c sep); [eauto|].
  destruct (strings_Split r sep); eauto.
Qed.

(** Splitting at a separator that joins two strings. *)
Lemma strings_Split_app (a b : string) (sep : ascii) :
  strings_Split (a +:+ String sep b) sep =
  (strings_Split a sep ++ strings_Split b sep)%list.
Proof.
  induction a as [|c a IH].
  - change ("" +:+ String sep b) with (String sep b).
    cbn [strings_Split]. now rewrite Ascii.eqb_refl.
  - change (String c a +:+ String sep b) with (String c (a +:+ String sep b)).
    cbn [strings_Split]. rewrite IH.
    destruct (Ascii.eqb c sep); [reflexivity|].
    destruct (strings_Split_cons a sep) as (piece & pieces & ->). reflexivity.
Qed.

(** A string without the separator is one piece. *)
Lemma strings_Split_whole (s : string) (sep : ascii) :
  ~ In sep (list_ascii_of_string s) -> strings_Split s sep = [s].
Proof.
  induction s as [|c s IH]; intros Hnot; [reflexivity|].
  cbn in *. destruct (Ascii.eqb_spec c sep) as [->|Hne]; [tauto|].
  rewrite IH by tauto. reflexivity.
Qed.

(** Joining with commas and splitting again yields the pieces of every
    element, in order. *)
Lemma strings_Split_Join (elems : list string) :
  elems <> [] ->
  strings_Split (strings_Join elems ",") "," =
  flat_map (fun e => strings_Split e ",") elems.
Proof.
  induction elems as [|e rest IH]; intros Hne; [congruence|].
  destruct rest as [|e' rest].
  - cbn [strings_Join flat_map]. now rewrite app_nil_r.
  - change (strings_Join (e :: e' :: rest) ",")
      with (e +:+ String "," (strings_Join (e' :: rest) ",")).
    rewrite strings_Split_app, IH by discriminate. reflexivity.
Qed.

(** ** Listing projects *)

Section ListRoute.

Variable WriteJson : Z -> Body -> option error.
Variable IntFromQuery : Request -> string -> Z -> Z * option error.
Variable ListProjects :
  Z -> Z -> list string -> list string -> list ProjectSummaryDto.t * option error.

(** X12. Whatever the query says, [RouteListProjects] asks the service
    once, for a page of 1 to 20 projects at an offset that is not
    negative, with no skills filter. A requested size between 1 and 20
    is passed as it is, any other becomes 20; a requested offset from 0
    to [MaxInt] is passed as it is. *)
Theorem RouteListProjects_page (request : Request) :
  exists pageSize pageOffset tags,
    asked (RouteListProjects WriteJson IntFromQuery ListProjects request) = [AskListProjects pageSize pageOffset tags []] /\
    1 <= pageSize <= 20 /\
    0 <= pageOffset < 2 ^ 64 /\
    (let size := fst (IntFromQuery request "pageSize" 20) in
     pageSize = if (1 <=? size) && (size <=? 20) then size else 20) /\
    (let offset := fst (IntFromQuery request "pageOffset" 0) in
     0 <= offset <= MaxInt -> pageOffset = offset).
Proof.
  unfold RouteListProjects.
  destruct (IntFromQuery request "pageSize" 20) as [size e1].
  destruct (IntFromQuery request "pageOffset" 0) as [offset e2].
  cbn [fst].
  set (tags := if (0 <? length (Query request "tags"))%nat then _ else _).
  set (ps := if (size <? 1) || (20 <? size) then 20 else size).
  set (po := if offset <? 1 then 0 else offset).
  exists (uint ps), (uint po), tags.
  assert (Hps : 1 <= ps <= 20 /\ ps = if (1 <=? size) && (size <=? 20) then size else 20).
  { subst ps.
    destruct (Z.ltb_spec size 1), (Z.ltb_spec 20 size),
             (Z.leb_spec 1 size), (Z.leb_spec size 20); cbn; lia. }
  assert (Hu : uint ps = ps) by (unfold uint; apply Z.mod_small; lia).
  assert (Hpo : 0 <= uint po < 2 ^ 64) by (unfold uint; apply Z.mod_pos_bound; lia).
  split; [|rewrite Hu; split; [apply Hps|split; [exact Hpo|split; [apply Hps|]]]].
  - destruct (ListProjects (uint ps) (uint po) tags []) as [l [e|]]; reflexivity.
  - intros Hoff. subst po. unfold MaxInt in Hoff. unfold uint.
    destruct (Z.ltb_spec offset 1); rewrite Z.mod_small; lia.
Qed.

(** X13. The tags handed to the service are the comma-separated pieces
    of every [tags] value of the query, in order; values without a comma
    are handed over as they are, an empty value included. *)
Theorem RouteListProjects_tags (request : Request) :
  exists pageSize pageOffset tags,
    asked (RouteListProjects WriteJson IntFromQuery ListProjects request) = [AskListProjects pageSize pageOffset tags []] /\
    tags = flat_map (fun v => strings_Split v ",") (Query request "tags") /\
    (Forall (fun v => ~ In ","%char (list_ascii_of_string v)) (Query request "tags") ->
     tags = Query request "tags").
Proof.
  unfold RouteListProjects.
  destruct (IntFromQuery request "pageSize" 20) as [size e1].
  destruct (IntFromQuery request "pageOffset" 0) as [offset e2].
  set (tags := if (0 <? length (Query request "tags"))%nat then _ else _).
  set (ps := if (size <? 1) || (20 <? size) then 20 else size).
  set (po := if offset <? 1 then 0 else offset).
  exists (uint ps), (uint po), tags.
  assert (Htags : tags = flat_map (fun v => strings_Split v ",") (Query request "tags")).
  { subst tags. destruct (Query request "tags") as [|v vs] eqn:Hq; [reflexivity|].
    cbn [length Nat.ltb Nat.leb]. cbv zeta. now rewrite strings_Split_Join. }
  split; [|split].
  - destruct (ListProjects (uint ps) (uint po) tags []) as [l [e|]]; reflexivity.
  - exact Htags.
  - rewrite Htags. clear. induction 1 as [|v vs Hv _ IH]; [reflexivity|].
    cbn [flat_map]. rewrite strings_Split_whole by exact Hv. now rewrite IH.
Qed.

(** X14. When the service answers, the response is status 200 with as
    many summaries, in the same order; each has its id, name, tags and
    short description as the service gave them and an empty, non-nil
    skills array. When the service fails its error is returned and
    nothing is written. *)
Theorem RouteListProjects_response (request : Request) :
  forall pageSize pageOffset tags skills,
    asked (RouteListProjects WriteJson IntFromQuery ListProjects request) = [AskListProjects pageSize pageOffset tags skills] ->
    match ListProjects pageSize pageOffset tags skills with
    | (_, Some e) =>
        written (RouteListProjects WriteJson IntFromQuery ListProjects request) = None /\ returned (RouteListProjects WriteJson IntFromQuery ListProjects request) = Some e
    | (summaries, None) =>
        exists sent_out,
          written (RouteListProjects WriteJson IntFromQuery ListProjects request) = Some (StatusOK, Some (JSummaries sent_out)) /\
          returned (RouteListProjects WriteJson IntFromQuery ListProjects request) = WriteJson StatusOK (JSummaries sent_out) /\
          Forall2 (fun s s' =>
                     ProjectSummaryDto.Skills s' = Some [] /\
                     ProjectSummaryDto.Id s' = ProjectSummaryDto.Id s /\
                     ProjectSummaryDto.Name s' = ProjectSummaryDto.Name s /\
                     ProjectSummaryDto.Tags s' = ProjectSummaryDto.Tags s /\
                     ProjectSummaryDto.ShortDescription s' =
                       ProjectSummaryDto.ShortDescription s)
                  summaries sent_out
    end.
Proof.
  unfold RouteListProjects.
  destruct (IntFromQuery request "pageSize" 20) as [size e1].
  destruct (IntFromQuery request "pageOffset" 0) as [offset e2].
  set (tags0 := if (0 <? length (Query request "tags"))%nat then _ else _).
  set (ps := if (size <? 1) || (20 <? size) then 20 else size).
  set (po := if offset <? 1 then 0 else offset).
  intros pageSize pageOffset tags skills Hasked.
  assert (Hcall : AskListProjects (uint ps) (uint po) tags0 [] =
                  AskListProjects pageSize pageOffset tags skills).
  { destruct (ListProjects (uint ps) (uint po) tags0 []) as [l [e|]];
      cbn [asked] in Hasked; congruence. }
  injection Hcall as <- <- <- <-.
  destruct (ListProjects (uint ps) (uint po) tags0 []) as [l [e|]]; cbn [written returned].
  - auto.
  - eexists. repeat split. clear. induction l as [|s l IH]; cbn; constructor; auto.
Qed.

End ListRoute.

Lemma RouteListProjects_page_witness :
  exists tags,
    asked (RouteListProjects sample_WriteJson sample_IntFromQuery sample_ListProjects
             page_request) = [AskListProjects 10 1 tags []].
Proof.
  destruct (RouteListProjects_page sample_WriteJson sample_IntFromQuery
              sample_ListProjects page_request)
    as (pageSize & pageOffset & tags & Hasked & _ & _ & Hsize & Hoffset).
  exists tags. rewrite Hasked, Hsize, Hoffset; [reflexivity|].
  vm_compute. split; discriminate.
Defined.

Lemma RouteListProjects_tags_witness :
  exists pageSize pageOffset,
    asked (RouteListProjects sample_WriteJson sample_IntFromQuery sample_ListProjects
             page_request) = [AskListProjects pageSize pageOffset ["go"; "rust"] []].
Proof.
  destruct (RouteListProjects_tags sample_WriteJson sample_IntFromQuery
              sample_ListProjects page_request)
    as (pageSize & pageOffset & tags & Hasked & Htags & _).
  exists pageSize, pageOffset. rewrite Hasked, Htags. reflexivity.
Defined.

Lemma RouteListProjects_response_witness :
  exists sent_out,
    written (RouteListProjects sample_WriteJson sample_IntFromQuery sample_ListProjects
               page_request) = Some (StatusOK, Some (JSummaries sent_out)) /\
    Forall (fun s => ProjectSummaryDto.Skills s = Some []) sent_out.
Proof.
  pose proof (RouteListProjects_response sample_WriteJson sample_IntFromQuery
                sample_ListProjects page_request 10 1 ["go"; "rust"] [] eq_refl) as H.
  cbn [sample_ListProjects] in H.
  destruct H as (sent_out & Hw & _ & Hall).
  exists sent_out. split; [exact Hw|].
  inversion Hall as [|s s' l l' Hs Hrest]; subst.
  inversion Hrest; subst. constructor; [apply Hs | constructor].
Defined.

(** ** Creating a project and fetching it *)

Section ItemRoutes.

Variable CheckSession : Request -> Z * option error.
Variable ReadJson : Request -> NewProjectDto.t * option error.
Variable WriteJson : Z -> Body -> option error.
Variable ProjectNotFoundError : error.
Variable Service_CreateProject : NewProjectDto.t -> option Project.t * option error.
Variable Service_GetProject : Z -> ProjectDto.t * option error.

(** X15. The path that [RouteCreateProject] announces in its Location
    header leads back to the project created: for every id of a [uint],
    [RouteGetProject], given the last segment of that path as its
    [projectId] variable, asks the service for exactly that id. *)
Theorem Location_leads_back
  (request lookup : Request) (dto : NewProjectDto.t) (created : Project.t) (uid : Z) :
  CheckSession request = (uid, None) ->
  ReadJson request = (dto, None) ->
  Service_CreateProject dto = (Some created, None) ->
  0 <= Project.ID created < 2 ^ 64 ->
  exists segment,
    header (RouteCreateProject CheckSession ReadJson WriteJson Service_CreateProject request)
      = [("Location", "/projects/" +:+ segment)] /\
    (Vars lookup "projectId" = Some segment ->
     asked (RouteGetProject WriteJson ProjectNotFoundError Service_GetProject lookup)
       = [AskGetProject (Project.ID created)]).
Proof.
  intros Hcheck Hread Hcreate Hid.
  exists (Itoa (int (Project.ID created))). split.
  - unfold RouteCreateProject. rewrite Hcheck, Hread, Hcreate. reflexivity.
  - intros Hvar. unfold RouteGetProject. rewrite Hvar.
    unfold Itoa. rewrite Atoi_FormatInt by apply int_range.
    rewrite uint_int by exact Hid.
    destruct (Service_GetProject (Project.ID created)) as [d [e|]];
      [destruct (errors_Is e ProjectNotFoundError)|]; reflexivity.
Qed.

(** X16. [RouteGetProject] turns away a [projectId] that [strconv.Atoi]
    rejects: the conversion error is returned, the service is not asked
    and nothing is written. Without the variable it asks for project 0. *)
Theorem RouteGetProject_id (request : Request) :
  (forall idStr e,
     Vars request "projectId" = Some idStr -> snd (Atoi idStr) = Some e ->
     RouteGetProject WriteJson ProjectNotFoundError Service_GetProject request =
       Build_Exchange [] [] None (Some e) false) /\
  (Vars request "projectId" = None ->
   asked (RouteGetProject WriteJson ProjectNotFoundError Service_GetProject request) =
     [AskGetProject 0]).
Proof.
  split.
  - intros idStr e Hvar Hbad. unfold RouteGetProject. rewrite Hvar.
    destruct (Atoi idStr) as [id err]. cbn in Hbad. now rewrite Hbad.
  - intros Hvar. unfold RouteGetProject. rewrite Hvar.
    destruct (Service_GetProject 0) as [d [e|]];
      [destruct (errors_Is e ProjectNotFoundError)|]; reflexivity.
Qed.

(** X17. [RouteCreateProject] asks the service to create a project only
    after the session check and the reading of the body have both
    succeeded, and it writes a response only after the service has
    created the project: status 201 with that project's summary. *)
Theorem RouteCreateProject_gate (request : Request) :
  let exchange :=
    RouteCreateProject CheckSession ReadJson WriteJson Service_CreateProject request in
  (asked exchange <> [] ->
   snd (CheckSession request) = None /\ snd (ReadJson request) = None /\
   asked exchange = [AskCreateProject (fst (ReadJson request))]) /\
  (written exchange <> None ->
   exists created,
     Service_CreateProject (fst (ReadJson request)) = (Some created, None) /\
     written exchange = Some (StatusCreated, Some (JSummary (GetProjectSummary created))) /\
     ProjectSummaryDto.Id (GetProjectSummary created) = Project.ID created).
Proof.
  cbv zeta. unfold RouteCreateProject.
  destruct (CheckSession request) as [uid [e|]]; cbn [snd fst asked written];
    [split; congruence|].
  destruct (ReadJson request) as [dto [e|]]; cbn [snd fst asked written];
    [split; congruence|].
  destruct (Service_CreateProject dto) as [[created|] [e|]]; cbn [asked written];
    (split; [auto|]); try congruence.
  intros _. exists created. auto.
Qed.

End ItemRoutes.

(** ** The service over the database *)

Section ServiceImpl.

Variable DB : Type.
Variable validate : NewProjectDto.t -> option error.
Variable Db_Create : Project.t -> DB -> (Project.t * option error) * DB.
Variable Db_Save : Project.t -> DB -> (Project.t * option error) * DB.
Variable Db_First : Project.t -> Z -> DB -> (Project.t * option error) * DB.

(** X18. Data that the validator rejects never reaches the database:
    [CreateProject] and [UpdateProject] return the validator's error and
    leave the database as it was. *)
Theorem rejected_data_is_not_stored
  (projectId : Z) (data : NewProjectDto.t) (db : DB) (e : error) :
  validate data = Some e ->
  CreateProject DB validate Db_Create data db = ((None, Some e), db) /\
  UpdateProject DB validate Db_Save projectId data db = (Some e, db).
Proof.
  intros Hbad. unfold CreateProject, UpdateProject. now rewrite Hbad.
Qed.

(** X19. [GetProject] never hands gorm's record-not-found error on: a
    missing record is reported as [ErrProjectNotFound], any other
    database error as it is, both with an empty DTO. A record that is
    found is returned field by field. *)
Theorem GetProject_reports (projectId : Z) (db : DB) :
  let looked_up := fst (Db_First Project_zero projectId db) in
  let got := fst (GetProject DB Db_First projectId db) in
  snd got <> Some gorm_ErrRecordNotFound /\
  (snd looked_up = Some gorm_ErrRecordNotFound ->
     got = (ProjectDto_zero, Some ErrProjectNotFound)) /\
  (forall e, snd looked_up = Some e -> e <> gorm_ErrRecordNotFound ->
     got = (ProjectDto_zero, Some e)) /\
  (snd looked_up = None ->
     snd got = None /\
     ProjectDto.Id (fst got) = Project.ID (fst looked_up) /\
     ProjectDto.Name (fst got) = Project.Name (fst looked_up) /\
     ProjectDto.Tags (fst got) = Project.Tags (fst looked_up) /\
     ProjectDto.ShortDescription (fst got) = Project.ShortDescription (fst looked_up) /\
     ProjectDto.LongDescription (fst got) = Project.LongDescription (fst looked_up) /\
     ProjectDto.GithubLink (fst got) = Project.GithubLink (fst looked_up)).
Proof.
  cbv zeta. unfold GetProject.
  destruct (Db_First Project_zero projectId db) as [[found [e|]] db1]; cbn [fst snd].
  - destruct (errors_Is e gorm_ErrRecordNotFound) eqn:His; cbn [fst snd].
    + apply bool_decide_eq_true_1 in His. subst e.
      repeat split; try discriminate; congruence.
    + apply bool_decide_eq_false_1 in His.
      repeat split; try discriminate; congruence.
  - repeat split; discriminate.
Qed.


(** X21. Behind [RouteCreateProject], the service of this package never
    makes the route panic: [CreateProject] returns a project exactly
    when it returns no error. *)
Theorem RouteCreateProject_does_not_panic
  (CheckSession : Request -> Z * option error)
  (ReadJson : Request -> NewProjectDto.t * option error)
  (WriteJson : Z -> Body -> option error)
  (request : Request) (db : DB) :
  panicked (RouteCreateProject CheckSession ReadJson WriteJson
              (fun dto => fst (CreateProject DB validate Db_Create dto db)) request) = false.
Proof.
  unfold RouteCreateProject.
  destruct (CheckSession request) as [uid [e|]]; [reflexivity|].
  destruct (ReadJson request) as [dto [e|]]; [reflexivity|].
  unfold CreateProject.
  destruct (validate dto) as [e|]; [reflexivity|].
  destruct (Db_Create _ db) as [[created [e|]] db1]; reflexivity.
Qed.

End ServiceImpl.

(** ** Sample runs *)

Lemma Location_leads_back_witness :
  header (RouteCreateProject sample_CheckSession sample_ReadJson sample_WriteJson
            (sample_CreateProject []) page_request) = [("Location", "/projects/1")] /\
  asked (RouteGetProject sample_WriteJson ErrProjectNotFound
           (sample_GetProject [with_ID 1 sample_project]) (project_request "1"))
    = [AskGetProject 1].
Proof.
  destruct (Location_leads_back sample_CheckSession sample_ReadJson sample_WriteJson
              ErrProjectNotFound (sample_CreateProject [])
              (sample_GetProject [with_ID 1 sample_project])
              page_request (project_request "1") sample_dto
              (with_ID 1 sample_project) 42 eq_refl eq_refl eq_refl)
    as (segment & Hheader & Hasked).
  - vm_compute. split; discriminate || reflexivity.
  - vm_compute in Hheader. injection Hheader as <-.
    split; [reflexivity | exact (Hasked eq_refl)].
Defined.

Lemma RouteGetProject_id_witness :
  RouteGetProject sample_WriteJson ErrProjectNotFound (sample_GetProject [])
    (project_request "seven") =
  Build_Exchange [] [] None (Some (NumError "Atoi" "seven" ErrSyntax)) false.
Proof.
  apply (RouteGetProject_id sample_WriteJson ErrProjectNotFound (sample_GetProject [])
           (project_request "seven")) with (idStr := "seven"); reflexivity.
Defined.

Lemma RouteCreateProject_gate_witness :
  exists created,
    sample_CreateProject [] (fst (sample_ReadJson page_request)) = (Some created, None) /\
    written (RouteCreateProject sample_CheckSession sample_ReadJson sample_WriteJson
               (sample_CreateProject []) page_request) =
      Some (StatusCreated, Some (JSummary (GetProjectSummary created))) /\
    ProjectSummaryDto.Id (GetProjectSummary created) = Project.ID created.
Proof.
  apply (RouteCreateProject_gate sample_CheckSession sample_ReadJson sample_WriteJson
           (sample_CreateProject []) page_request).
  vm_compute. discriminate.
Defined.

Lemma rejected_data_is_not_stored_witness :
  let unnamed := NewProjectDto.mk "" [] "" "" "" in
  CreateProject (list Project.t) sample_validate sample_Db_Create unnamed [] =
    ((None, Some (OtherError "Name is required")), []) /\
  UpdateProject (list Project.t) sample_validate sample_Db_Save 1 unnamed [] =
    (Some (OtherError "Name is required"), []).
Proof.
  intros unnamed.
  apply (rejected_data_is_not_stored (list Project.t) sample_validate sample_Db_Create
           sample_Db_Save 1 unnamed []).
  reflexivity.
Defined.

Lemma GetProject_reports_witness :
  fst (GetProject (list Project.t) sample_Db_First 7 []) =
    (ProjectDto_zero, Some ErrProjectNotFound).
Proof.
  apply (proj1 (proj2 (GetProject_reports (list Project.t) sample_Db_First 7 []))).
  reflexivity.
Defined.

